(** * FullTravelBot: a shallow embedding of [FullTravelBot.py]

    The development follows the layout of the Python module: the Redis
    sorted-set commands used by [RateLimiter], the rate limiter itself,
    [Config.validate], [Analytics], [DatabaseManager], [Translations],
    [PaymentManager] and the [start] handler of [EnhancedTravelBot].

    Conventions.  Python exceptions are values of [exn]; a call that may
    raise returns [Res].  Objects that the handlers mutate (the Redis
    keyspace, the user table, the Prometheus counters, the chat outbox,
    the error log) are fields of an explicit [World] threaded through a
    small state-and-exception monad. *)

From Stdlib Require Import ZArith String List Lia PrimFloat FloatOps.
From stdpp Require Import gmap strings list fin_maps fin_sets sorting.

Open Scope Z_scope.

(** ** Exceptions and results *)

Inductive exn : Type :=
| AttributeError (attr : string)
| KeyError (key : string)
| ValueError (msg : string)
| OverflowError
| ConnectionError
| DatabaseError
| IntegrityError
| DataError
| DetachedInstanceError
| NetworkError
| VendorError.

Inductive Res (A : Type) : Type :=
| Ok (a : A)
| Raise (e : exn).
Arguments Ok {A} a.
Arguments Raise {A} e.

(** ** Redis: the sorted-set commands of the rate-limit pipeline *)

Module Redis.

(** A sorted-set key: members with their scores and an optional
    absolute expiry deadline in milliseconds. *)
Record zkey : Type := ZKey {
  zmembers : gmap Z Z;
  zexpire_at : option Z
}.

(** The key a command sees at time [now]: a key exists up to and
    including its deadline and no longer once the clock is past it. *)
Definition live (db : gmap Z zkey) (key now : Z) : option zkey :=
  match db !! key with
  | Some k =>
      match zexpire_at k with
      | Some deadline => if decide (deadline < now) then None else Some k
      | None => Some k
      end
  | None => None
  end.

(** ZADD key score member: inserts or re-scores one member; the reply
    is the number of members newly added.  The TTL of an existing key
    is kept. *)
Definition zadd (db : gmap Z zkey) (key member score now : Z)
  : gmap Z zkey * Z :=
  let old := live db key now in
  let members := from_option zmembers ∅ old in
  let ttl := old ≫= zexpire_at in
  (<[key := ZKey (<[member := score]> members) ttl]> db,
   if members !! member is Some _ then 0 else 1).

Definition in_score_range (lo hi : Z) (entry : Z * Z) : Prop :=
  lo <= entry.2 <= hi.

#[global] Instance in_score_range_dec lo hi entry :
  Decision (in_score_range lo hi entry).
Proof. unfold in_score_range. apply _. Defined.

(** ZREMRANGEBYSCORE key lo hi: removes the members whose score lies in
    [lo, hi]; a sorted set left empty is deleted. *)
Definition zremrangebyscore (db : gmap Z zkey) (key lo hi now : Z)
  : gmap Z zkey * Z :=
  match live db key now with
  | None => (db, 0)
  | Some k =>
      let kept := filter (λ e, ¬ in_score_range lo hi e) (zmembers k) in
      let removed := Z.of_nat (size (zmembers k)) - Z.of_nat (size kept) in
      (if decide (kept = ∅) then delete key db
       else <[key := ZKey kept (zexpire_at k)]> db,
       removed)
  end.

(** ZCARD key. *)
Definition zcard (db : gmap Z zkey) (key now : Z) : Z :=
  match live db key now with
  | Some k => Z.of_nat (size (zmembers k))
  | None => 0
  end.

(** EXPIRE key seconds. *)
Definition expire (db : gmap Z zkey) (key seconds now : Z)
  : gmap Z zkey * Z :=
  match live db key now with
  | Some k =>
      (<[key := ZKey (zmembers k) (Some (now + seconds * 1000))]> db, 1)
  | None => (db, 0)
  end.

(** A connection: the keyspace and whether the server can be reached. *)
Record conn : Type := Conn {
  keyspace : gmap Z zkey;
  reachable : bool
}.

End Redis.

(** ** RateLimiter *)

Module RateLimiter.
Import Redis.

Record t : Type := Make {
  redis : Redis.conn;
  limit : Z
}.

(** [f"rate_limit:{user_id}"]: the decimal rendering is injective, the
    key is identified with the user id. *)
Definition rate_limit_key (user_id : Z) : Z := user_id.

(** [int(time.time())] for a clock reading in milliseconds: [int]
    truncates towards zero. *)
Definition int_time (now : Z) : Z := Z.quot now 1000.

(** The four queued commands, executed in order by [pipe.execute()];
    the reply list is returned with the new keyspace. *)
Definition pipeline (db : gmap Z zkey) (user_id now : Z)
  : gmap Z zkey * (Z * Z * Z * Z) :=
  let current := int_time now in
  let key := rate_limit_key user_id in
  let '(db1, r0) := zadd db key current current now in
  let '(db2, r1) := zremrangebyscore db1 key 0 (current - 60) now in
  let r2 := zcard db2 key now in
  let '(db3, r3) := expire db2 key 60 now in
  (db3, (r0, r1, r2, r3)).

(** [results[2]] *)
Definition window_count (results : Z * Z * Z * Z) : Z :=
  let '(_, _, r2, _) := results in r2.

Definition check_rate_limit (self : t) (user_id now : Z) : Res bool * t :=
  if reachable (redis self) then
    let '(db', results) := pipeline (keyspace (redis self)) user_id now in
    (Ok (bool_decide (window_count results <= limit self)),
     Make (Conn db' true) (limit self))
  else (Raise ConnectionError, self).

(** A run of calls [(user_id, now)] against one limiter: the replies in
    call order and the limiter afterwards. *)
Fixpoint run (self : t) (calls : list (Z * Z)) : list (Res bool) * t :=
  match calls with
  | [] => ([], self)
  | (user_id, now) :: rest =>
      let '(r, self') := check_rate_limit self user_id now in
      let '(rs, self'') := run self' rest in
      (r :: rs, self'')
  end.

Definition fresh (lim : Z) : t := Make (Conn ∅ true) lim.

End RateLimiter.

(** ** Config *)

Module Config.

(** [os.environ] *)
Definition getenv (env : gmap string string) (var : string) : option string :=
  env !! var.

(** Python truthiness of [os.getenv(var)]: [None] and the empty string
    are false. *)
Definition truthy (v : option string) : bool :=
  match v with
  | Some EmptyString => false
  | Some _ => true
  | None => false
  end.

Record t : Type := Make {
  BOT_TOKEN : option string;
  GOOGLE_SHEET_ID : option string;
  PAYPAL_CLIENT_ID : option string;
  PAYPAL_CLIENT_SECRET : option string;
  STRIPE_SECRET_KEY : option string;
  DATABASE_URL : option string;
  REDIS_URL : option string;
  RATE_LIMIT : Z;
  SUPPORTED_LANGUAGES : list string
}.

Definition default_rate_limit : Z := 60.

(** The class attributes as read from the environment; [parse_int]
    stands for Python's [int] on the text of RATE_LIMIT. *)
Definition load (parse_int : string → Z) (env : gmap string string) : t :=
  {| BOT_TOKEN := getenv env "BOT_TOKEN";
     GOOGLE_SHEET_ID := getenv env "GOOGLE_SHEET_ID";
     PAYPAL_CLIENT_ID := getenv env "PAYPAL_CLIENT_ID";
     PAYPAL_CLIENT_SECRET := getenv env "PAYPAL_CLIENT_SECRET";
     STRIPE_SECRET_KEY := getenv env "STRIPE_SECRET_KEY";
     DATABASE_URL := getenv env "DATABASE_URL";
     REDIS_URL := getenv env "REDIS_URL";
     RATE_LIMIT := from_option parse_int default_rate_limit
                     (getenv env "RATE_LIMIT");
     SUPPORTED_LANGUAGES := ["en"; "ru"; "es"; "zh"] |}.

Definition required_vars : list string :=
  ["BOT_TOKEN"; "DATABASE_URL"; "REDIS_URL";
   "PAYPAL_CLIENT_ID"; "STRIPE_SECRET_KEY"].

Definition validate (env : gmap string string) : bool :=
  forallb (λ var, truthy (getenv env var)) required_vars.

End Config.

(** ** Analytics: the Prometheus collectors *)

Module Prometheus.

Record Counter : Type := MkCounter {
  c_name : string;
  c_documentation : string;
  c_labelnames : list string;
  c_children : gmap (list string) Z
}.

Record Histogram : Type := MkHistogram {
  h_name : string;
  h_documentation : string;
  h_labelnames : list string
}.

(** [counter.labels] with keyword arguments: the label values in the order of the
    declared label names; wrong label names raise [ValueError]. *)
Definition labels (c : Counter) (kwargs : list (string * string))
  : Res (list string) :=
  if decide (length kwargs = length (c_labelnames c)) then
    match mapM (λ name, (λ hit, hit.2.2) <$>
                          list_find (λ kv, kv.1 = name) kwargs)
               (c_labelnames c) with
    | Some values => Ok values
    | None => Raise (ValueError "Incorrect label names")
    end
  else Raise (ValueError "Incorrect label names").

Definition value (c : Counter) (labelvalues : list string) : Z :=
  default 0 (c_children c !! labelvalues).

(** [child.inc()] *)
Definition inc (c : Counter) (labelvalues : list string) : Counter :=
  MkCounter (c_name c) (c_documentation c) (c_labelnames c)
    (<[labelvalues := value c labelvalues + 1]> (c_children c)).

End Prometheus.

Module Analytics.
Import Prometheus.

Record t : Type := Make {
  command_counter : Counter;
  payment_counter : Counter;
  response_time : Histogram
}.

(** [Analytics.__init__] *)
Definition init : t :=
  {| command_counter :=
       MkCounter "bot_commands_total"
         "Общее количество полученных команд" ["command"] ∅;
     payment_counter :=
       MkCounter "payments_total"
         "Общее количество обработанных платежей" ["provider"; "status"] ∅;
     response_time :=
       MkHistogram "response_time_seconds"
         "Время ответа в секундах" ["endpoint"] |}.

(** What a scrape of the metrics endpoint shows for the counter sample
    [name{labels}]: searched among the counters by name, with the
    label set matched against the declared label names; [None] when no
    counter of that name is exposed, and also when the counter has no
    child for these label values yet (a child appears with the first
    call of [labels]). *)
Definition scrape (a : t) (name : string) (kwargs : list (string * string))
  : option Z :=
  match
    list_find (λ c, c_name c = name) [command_counter a; payment_counter a]
  with
  | Some (_, c) =>
      match labels c kwargs with
      | Ok values => c_children c !! values
      | Raise _ => None
      end
  | None => None
  end.

End Analytics.

(** ** The ORM tables and DatabaseManager *)

Module User.
Record t : Type := Make {
  id : Z;
  telegram_id : Z;
  language : string;
  created_at : Z;
  last_active : option Z;
  preferences : option string
}.

(** A [User] object as its holder sees it once the session it came
    from is closed.  An object returned by a query keeps the attribute
    values the query loaded.  An object that went through
    [session.commit()] was expired by the commit and, its session
    closed, can no longer be refreshed: reading an attribute raises. *)
Inductive instance : Type :=
| Loaded (row : t)
| Detached.

(** [user.language] *)
Definition get_language (user : instance) : Res string :=
  match user with
  | Loaded row => Ok (language row)
  | Detached => Raise DetachedInstanceError
  end.
End User.

Module Transaction.
Record t : Type := Make {
  id : Z;
  user_id : Z;
  amount : float;
  currency : string;
  provider : string;
  status : string;
  created_at : Z;
  payment_data : option string
}.
End Transaction.

Module DatabaseManager.

(** What the backend does with a string longer than its column:
    SQLite stores it as it is, PostgreSQL refuses the statement, MySQL
    outside strict mode cuts it to the column's length. *)
Inductive overlong : Type := Stored | Refused | Truncated.

Record t : Type := Make {
  users : list User.t;
  transactions : list Transaction.t;
  available : bool;
  on_overlong : overlong
}.

(** A value for a column declared [String(n)]; lengths are counted in
    bytes, which for language codes are characters. *)
Definition fit_column (policy : overlong) (n : nat) (value : string)
  : Res string :=
  if decide (String.length value <= n)%nat then Ok value
  else
    match policy with
    | Stored => Ok value
    | Refused => Raise DataError
    | Truncated => Ok (substring 0 n value)
    end.

(** [session.query(User).filter_by(telegram_id=telegram_id).first()] *)
Definition get_user (self : t) (telegram_id : Z) : Res (option User.t) :=
  if available self then
    Ok (head (filter (λ u, User.telegram_id u = telegram_id) (users self)))
  else Raise DatabaseError.

Definition next_id (self : t) : Z :=
  1 + foldr Z.max 0 (User.id <$> users self).

(** [session.add(user); session.commit(); return user], with [utcnow]
    and [utcnow'] the two readings of [datetime.utcnow()] in the
    constructor call.  The row gets the next primary key; [language] is
    a [String(2)] column; [telegram_id] is declared unique, so a second
    row for the same identity is refused by the commit.  The object
    handed back has been expired by the commit and leaves its session
    with the [with] block. *)
Definition create_user (self : t) (telegram_id : Z) (language : string)
    (utcnow utcnow' : Z) : Res User.instance * t :=
  if available self then
    match fit_column (on_overlong self) 2 language with
    | Raise e => (Raise e, self)
    | Ok stored =>
        if decide (telegram_id ∈ User.telegram_id <$> users self) then
          (Raise IntegrityError, self)
        else
          let row :=
            User.Make (next_id self) telegram_id stored utcnow
              (Some utcnow') None in
          (Ok User.Detached,
           Make (users self ++ [row]) (transactions self) true
             (on_overlong self))
    end
  else (Raise DatabaseError, self).

End DatabaseManager.

(** ** Translations *)

Module Translations.

Definition en : gmap string string :=
  <["welcome" := "Welcome to Travel Assistant!"]>
  (<["select_service" := "Please select a service:"]>
  (<["payment_error" := "Payment error occurred."]>
  (<["feedback_thanks" := "Thank you for your feedback!"]> ∅))).

Definition ru : gmap string string :=
  <["welcome" := "Добро пожаловать в помощник путешественника!"]>
  (<["select_service" := "Пожалуйста, выберите услугу:"]>
  (<["payment_error" := "Произошла ошибка оплаты."]>
  (<["feedback_thanks" := "Спасибо за ваш отзыв!"]> ∅))).

Definition es : gmap string string :=
  <["welcome" := "¡Bienvenido al Asistente de Viajes!"]>
  (<["select_service" := "Por favor, seleccione un servicio:"]>
  (<["payment_error" := "Ocurrió un error en el pago."]>
  (<["feedback_thanks" := "¡Gracias por su comentario!"]> ∅))).

Definition zh : gmap string string :=
  <["welcome" := "欢迎使用旅行助手！"]>
  (<["select_service" := "请选择服务："]>
  (<["payment_error" := "支付发生错误。"]>
  (<["feedback_thanks" := "感谢您的反馈！"]> ∅))).

(** [self.translations] as built by [__init__]. *)
Definition translations : gmap string (gmap string string) :=
  <["en" := en]> (<["ru" := ru]> (<["es" := es]> (<["zh" := zh]> ∅))).

(** [d[k]] on a dict: [KeyError] when the key is missing. *)
Definition getitem {V} (d : gmap string V) (k : string) : Res V :=
  match d !! k with
  | Some v => Ok v
  | None => Raise (KeyError k)
  end.

(** [self.translations.get(language, self.translations['en'])
      .get(key, self.translations['en'][key])]: both default
    arguments are evaluated before the [get] they are passed to. *)
Definition get_text (self : gmap string (gmap string string))
    (key language : string) : Res string :=
  match getitem self "en" with
  | Raise e => Raise e
  | Ok default_table =>
      let table := default default_table (self !! language) in
      match getitem self "en" with
      | Raise e => Raise e
      | Ok en_table =>
          match getitem en_table key with
          | Raise e => Raise e
          | Ok default_text => Ok (default default_text (table !! key))
          end
      end
  end.

End Translations.

(** ** The chat transport *)

Module Telegram.

Record User : Type := MkUser {
  id : Z;
  language_code : option string
}.

Record Message : Type := MkMessage { chat_id : Z }.

Record Update : Type := MkUpdate {
  effective_user : option User;
  message : option Message;
  effective_message : option Message
}.

Inductive ParseMode : Type := MARKDOWN.

Record Sent : Type := MkSent {
  to : Z;
  text : string;
  parse_mode : option ParseMode;
  reply_markup : option (list (list string))
}.

(** What has been delivered so far and whether sending succeeds. *)
Record t : Type := Make {
  outbox : list Sent;
  up : bool
}.

(** [message.reply_text(text, parse_mode=..., reply_markup=...)] *)
Definition reply_text (self : t) (m : Message) (txt : string)
    (pm : option ParseMode) (markup : option (list (list string)))
  : Res unit * t :=
  if up self then
    (Ok tt, Make (outbox self ++ [MkSent (chat_id m) txt pm markup]) true)
  else (Raise NetworkError, self).

End Telegram.

(** ** The payment vendors' SDKs *)

Inductive PaymentProvider : Type := PAYPAL | STRIPE | CRYPTO.

(** [PaymentProvider.X.value] *)
Definition provider_value (p : PaymentProvider) : string :=
  match p with
  | PAYPAL => "paypal"
  | STRIPE => "stripe"
  | CRYPTO => "crypto"
  end.

(** What a caller can pass as [provider]: a member of the enum or any
    other object, kept by its [str]. *)
Inductive provider_arg : Type :=
| Member (p : PaymentProvider)
| Other (str : string).

Definition provider_str (p : provider_arg) : string :=
  match p with
  | Member PAYPAL => "PaymentProvider.PAYPAL"
  | Member STRIPE => "PaymentProvider.STRIPE"
  | Member CRYPTO => "PaymentProvider.CRYPTO"
  | Other s => s
  end.

(** [f"{amount:.2f}"], kept symbolic. *)
Inductive fixed2 : Type := Format2f (amount : float).

(** [int(x)] on a float: truncation towards zero; [ValueError] on NaN,
    [OverflowError] on an infinity. *)
Definition int_of_float (x : float) : Res Z :=
  match Prim2SF x with
  | SpecFloat.S754_zero _ => Ok 0
  | SpecFloat.S754_finite sign m e =>
      let magnitude :=
        if 0 <=? e then Z.shiftl (Z.pos m) e else Z.shiftr (Z.pos m) (- e) in
      Ok (if sign then - magnitude else magnitude)
  | SpecFloat.S754_infinity _ => Raise OverflowError
  | SpecFloat.S754_nan => Raise (ValueError "cannot convert float NaN to integer")
  end.

Module Vendors.

Record PayPalPayment : Type := MkPayPalPayment {
  intent : string;
  payment_method : string;
  total : fixed2;
  pp_currency : string;
  pp_description : string;
  return_url : string;
  pp_cancel_url : string
}.

(** [payment.create()]: true with an id and links, false, or an
    exception from the SDK. *)
Inductive PayPalReply : Type :=
| PayPalCreated (id : string) (links : list string)
| PayPalRefused
| PayPalRaises.

Record StripeSession : Type := MkStripeSession {
  payment_method_types : list string;
  st_currency : string;
  unit_amount : Z;
  product_name : string;
  quantity : Z;
  mode : string;
  success_url : string;
  st_cancel_url : string
}.

Inductive StripeReply : Type :=
| StripeCreated (id : string) (url : string)
| StripeRaises.

Inductive Call : Type :=
| PayPalCall (p : PayPalPayment)
| StripeCall (s : StripeSession).

(** The two vendors: the credentials the SDKs were configured with, how
    each answers a request, and the requests made so far. *)
Record t : Type := Make {
  paypal_credentials : option (string * option string * option string);
  stripe_api_key : option string;
  paypal : PayPalPayment → PayPalReply;
  stripe : StripeSession → StripeReply;
  calls : list Call
}.

End Vendors.

(** The dict returned for a created payment. *)
Inductive PaymentRef : Type :=
| PayPalRef (id : string) (links : list string) (provider : string)
| StripeRef (id : string) (url : string) (provider : string).

(** ** The world and its monad *)

Record LogRecord : Type := LogError {
  log_prefix : string;
  log_exn : exn
}.

(** Modelled from the spec: the state constants [SELECTING_SERVICE] and
    [AWAITING_PAYMENT], which [start] and [main] use but the module
    never declares; they are the two non-idle states of the conversation
    (IDLE, SELECTING_SERVICE, AWAITING_PAYMENT).  [END] is
    [ConversationHandler.END], the return to IDLE. *)
Inductive ConvState : Type := END | SELECTING_SERVICE | AWAITING_PAYMENT.

(** The attributes of the [EnhancedTravelBot] instance together with its
    surroundings: wall clock, chat transport, vendors and logger.
    [clock] is the reading [time.time()] gives the rate limiter, in
    milliseconds; [utcnow] are the two readings [datetime.utcnow()]
    gives [create_user]. *)
Record World : Type := MkWorld {
  clock : Z;
  utcnow : Z * Z;
  config : Config.t;
  db : DatabaseManager.t;
  analytics : Analytics.t;
  rate_limiter : RateLimiter.t;
  translations : gmap string (gmap string string);
  vendors : Vendors.t;
  telegram : Telegram.t;
  log : list LogRecord
}.

Definition set_db (d : DatabaseManager.t) (w : World) : World :=
  MkWorld (clock w) (utcnow w) (config w) d (analytics w) (rate_limiter w)
    (translations w) (vendors w) (telegram w) (log w).
Definition set_analytics (a : Analytics.t) (w : World) : World :=
  MkWorld (clock w) (utcnow w) (config w) (db w) a (rate_limiter w)
    (translations w) (vendors w) (telegram w) (log w).
Definition set_rate_limiter (r : RateLimiter.t) (w : World) : World :=
  MkWorld (clock w) (utcnow w) (config w) (db w) (analytics w) r
    (translations w) (vendors w) (telegram w) (log w).
Definition set_vendors (v : Vendors.t) (w : World) : World :=
  MkWorld (clock w) (utcnow w) (config w) (db w) (analytics w) (rate_limiter w)
    (translations w) v (telegram w) (log w).
Definition set_telegram (t : Telegram.t) (w : World) : World :=
  MkWorld (clock w) (utcnow w) (config w) (db w) (analytics w) (rate_limiter w)
    (translations w) (vendors w) t (log w).
Definition set_log (l : list LogRecord) (w : World) : World :=
  MkWorld (clock w) (utcnow w) (config w) (db w) (analytics w) (rate_limiter w)
    (translations w) (vendors w) (telegram w) l.

Definition M (A : Type) : Type := World → Res A * World.

Definition ret {A} (a : A) : M A := λ w, (Ok a, w).

Definition raise {A} (e : exn) : M A := λ w, (Raise e, w).

Definition bind {A B} (m : M A) (k : A → M B) : M B :=
  λ w, match m w with
       | (Ok a, w') => k a w'
       | (Raise e, w') => (Raise e, w')
       end.

(** [try: body except Exception as e: handler] *)
Definition try_except {A} (body : M A) (handler : exn → M A) : M A :=
  λ w, match body w with
       | (Ok a, w') => (Ok a, w')
       | (Raise e, w') => handler e w'
       end.

Notation "'let*' x ':=' m 'in' k" := (bind m (λ x, k))
  (at level 10, x name, m at level 100, k at level 200).
Notation "m ';;' k" := (bind m (λ _, k))
  (at level 100, k at level 200, right associativity).

Definition lift {A} (r : Res A) : M A := λ w, (r, w).

(** [obj.attr] where [obj] may be [None]. *)
Definition attr {A} (name : string) (obj : option A) : M A :=
  match obj with
  | Some a => ret a
  | None => raise (AttributeError name)
  end.

(** [logger.error(f"{prefix}: {e}")] *)
Definition logger_error (prefix : string) (e : exn) : M unit :=
  λ w, (Ok tt, set_log (log w ++ [LogError prefix e]) w).

(** ** PaymentManager *)

Module PaymentManager.
Import Vendors.

(** [_initialize_providers]: hands the credentials to the two SDKs. *)
Definition _initialize_providers : M unit :=
  λ w,
    let v := vendors w in
    (Ok tt,
     set_vendors
       (Vendors.Make
          (Some ("sandbox", Config.PAYPAL_CLIENT_ID (config w),
                 Config.PAYPAL_CLIENT_SECRET (config w)))
          (Config.STRIPE_SECRET_KEY (config w))
          (paypal v) (stripe v) (calls v))
       w).

(** One request to a vendor: recorded, then answered. *)
Definition call_paypal (p : PayPalPayment) : M PayPalReply :=
  λ w,
    let v := vendors w in
    (Ok (paypal v p),
     set_vendors
       (Vendors.Make (paypal_credentials v) (stripe_api_key v)
          (paypal v) (stripe v) (calls v ++ [PayPalCall p]))
       w).

Definition call_stripe (s : StripeSession) : M StripeReply :=
  λ w,
    let v := vendors w in
    (Ok (stripe v s),
     set_vendors
       (Vendors.Make (paypal_credentials v) (stripe_api_key v)
          (paypal v) (stripe v) (calls v ++ [StripeCall s]))
       w).

(** The argument of [paypalrestsdk.Payment]. *)
Definition paypal_payment (amount : float) (currency description : string)
  : PayPalPayment :=
  {| intent := "sale";
     payment_method := "paypal";
     total := Format2f amount;
     pp_currency := currency;
     pp_description := description;
     return_url := "https://your-domain.com/payment/success";
     pp_cancel_url := "https://your-domain.com/payment/cancel" |}.

(** The arguments of [stripe.checkout.Session.create]. *)
Definition stripe_session (cents : Z) (currency description : string)
  : StripeSession :=
  {| payment_method_types := ["card"];
     st_currency := currency;
     unit_amount := cents;
     product_name := description;
     quantity := 1;
     mode := "payment";
     success_url := "https://your-domain.com/success";
     st_cancel_url := "https://your-domain.com/cancel" |}.

Definition _create_paypal_payment (amount : float) (currency : string)
    (description : string) : M (option PaymentRef) :=
  let payment := paypal_payment amount currency description in
  let* reply := call_paypal payment in
  match reply with
  | PayPalCreated id links =>
      ret (Some (PayPalRef id links (provider_value PAYPAL)))
  | PayPalRefused => ret None
  | PayPalRaises => raise VendorError
  end.

Definition _create_stripe_payment (amount : float) (currency : string)
    (description : string) : M (option PaymentRef) :=
  try_except
    (let* cents := lift (int_of_float (amount * 100)%float) in
     let* reply := call_stripe (stripe_session cents currency description) in
     match reply with
     | StripeCreated id url =>
         ret (Some (StripeRef id url (provider_value STRIPE)))
     | StripeRaises => raise VendorError
     end)
    (λ e, logger_error "Ошибка создания платежа Stripe" e ;; ret None).

Definition create_payment (amount : float) (currency : string)
    (provider : provider_arg) (description : string)
  : M (option PaymentRef) :=
  try_except
    (match provider with
     | Member PAYPAL => _create_paypal_payment amount currency description
     | Member STRIPE => _create_stripe_payment amount currency description
     | _ =>
         raise (ValueError ("Неподдерживаемый провайдер платежей: "
                            +:+ provider_str provider))
     end)
    (λ e, logger_error "Ошибка создания платежа" e ;; ret None).

End PaymentManager.

(** ** EnhancedTravelBot *)

Module EnhancedTravelBot.

Definition check_rate_limit (user_id : Z) : M bool :=
  λ w,
    let '(r, rl) :=
      RateLimiter.check_rate_limit (rate_limiter w) user_id (clock w) in
    (r, set_rate_limiter rl w).

(** [self.analytics.command_counter.labels(command=c).inc()] *)
Definition count_command (c : string) : M unit :=
  λ w,
    let a := analytics w in
    match Prometheus.labels (Analytics.command_counter a) [("command", c)] with
    | Ok values =>
        (Ok tt,
         set_analytics
           (Analytics.Make
              (Prometheus.inc (Analytics.command_counter a) values)
              (Analytics.payment_counter a) (Analytics.response_time a))
           w)
    | Raise e => (Raise e, w)
    end.

Definition get_user (telegram_id : Z) : M (option User.t) :=
  λ w, (DatabaseManager.get_user (db w) telegram_id, w).

Definition create_user (telegram_id : Z) (language : string)
  : M User.instance :=
  λ w,
    let '(r, d) :=
      DatabaseManager.create_user (db w) telegram_id language
        (utcnow w).1 (utcnow w).2 in
    (r, set_db d w).

Definition get_text (key language : string) : M string :=
  λ w, (Translations.get_text (translations w) key language, w).

Definition reply_text (m : Telegram.Message) (txt : string)
    (pm : option Telegram.ParseMode) (markup : option (list (list string)))
  : M unit :=
  λ w,
    let '(r, t) := Telegram.reply_text (telegram w) m txt pm markup in
    (r, set_telegram t w).

(** [language_code or 'en'] *)
Definition or_en (language_code : option string) : string :=
  match language_code with
  | None => "en"
  | Some EmptyString => "en"
  | Some code => code
  end.

Definition _get_keyboard (language : string) : list (list string) :=
  [["🛡 Страховка"; "🌐 Переводы"];
   ["🍽 Рестораны"; "✈️ Авиабилеты"];
   ["🏨 Отели"; "🔎 Другое"]].

Definition error_msg : string :=
  "Произошла ошибка. Пожалуйста, попробуйте позже.".

Definition rate_limit_notice : string :=
  "Слишком много запросов. Пожалуйста, попробуйте позже.".

Definition _handle_error (update : Telegram.Update) : M unit :=
  match Telegram.effective_message update with
  | Some m => reply_text m error_msg None None
  | None => ret tt
  end.

(** The body of the [try] in [start]. *)
Definition start_body (update : Telegram.Update) : M ConvState :=
  let* effective_user := attr "id" (Telegram.effective_user update) in
  let user_id := Telegram.id effective_user in
  let* allowed := check_rate_limit user_id in
  if negb allowed then
    let* m := attr "reply_text" (Telegram.message update) in
    reply_text m rate_limit_notice None None ;;
    ret END
  else
    count_command "start" ;;
    let* found := get_user user_id in
    let* user :=
      match found with
      | Some row => ret (User.Loaded row)
      | None =>
          create_user user_id
            (or_en (Telegram.language_code effective_user))
      end in
    let* language := lift (User.get_language user) in
    let* welcome_text := get_text "welcome" language in
    let* m := attr "reply_text" (Telegram.message update) in
    reply_text m welcome_text (Some Telegram.MARKDOWN)
      (Some (_get_keyboard language)) ;;
    ret SELECTING_SERVICE.

Definition start (update : Telegram.Update) : M ConvState :=
  try_except (start_body update)
    (λ e,
       logger_error "Ошибка в команде start" e ;;
       _handle_error update ;;
       ret END).

End EnhancedTravelBot.

(** ** main *)

(** The first step of [main]: when [Config.validate()] is false the
    error is logged and [main] returns before anything is constructed;
    otherwise [Config()] is built and the services are set up from it. *)
Definition main_configuration (parse_int : string → Z)
    (env : gmap string string) : option Config.t :=
  if negb (Config.validate env) then None
  else Some (Config.load parse_int env).

(** ** Sample worlds *)

Module Sample.

Definition env : gmap string string :=
  <["BOT_TOKEN" := "123:abc"]>
  (<["DATABASE_URL" := "sqlite:///bot.db"]>
  (<["REDIS_URL" := "redis://localhost:6379/0"]>
  (<["PAYPAL_CLIENT_ID" := "client"]>
  (<["STRIPE_SECRET_KEY" := "sk_test"]> ∅)))).

Definition vendors_down : Vendors.t :=
  Vendors.Make None None
    (λ _, Vendors.PayPalRefused) (λ _, Vendors.StripeRaises) [].

(** A freshly constructed bot: empty tables, empty keyspace, counters
    at zero, nothing sent, nothing logged. *)
Definition world : World :=
  {| clock := 1700000000000;
     utcnow := (1700000000001, 1700000000002);
     config := Config.load (λ _, 60) env;
     db := DatabaseManager.Make [] [] true DatabaseManager.Stored;
     analytics := Analytics.init;
     rate_limiter := RateLimiter.fresh 60;
     translations := Translations.translations;
     vendors := vendors_down;
     telegram := Telegram.Make [] true;
     log := [] |}.

Definition start_from (identity : Z) (locale : option string)
  : Telegram.Update :=
  Telegram.MkUpdate (Some (Telegram.MkUser identity locale))
    (Some (Telegram.MkMessage identity))
    (Some (Telegram.MkMessage identity)).

End Sample.

(** * Terms of the properties *)

(** ** Payments *)

Section PaymentsTerms.
Import Vendors PaymentManager.

(** The providers [create_payment] has an [if]/[elif] branch for. *)
Definition has_dispatch_branch (provider : provider_arg) : Prop :=
  provider = Member PAYPAL ∨ provider = Member STRIPE.

(** The record logged for the [ValueError] of the [else] branch. *)
Definition unsupported_error (provider : provider_arg) : LogRecord :=
  LogError "Ошибка создания платежа"
    (ValueError ("Неподдерживаемый провайдер платежей: "
                 +:+ provider_str provider)).

(** The vendor-side failure of a supported provider for this request:
    PayPal's [payment.create()] returns false or raises; Stripe's
    [Session.create] raises. *)
Definition vendor_failure (amount : float) (currency description : string)
    (provider : PaymentProvider) (v : Vendors.t) : Prop :=
  match provider with
  | PAYPAL =>
      let reply := paypal v (paypal_payment amount currency description) in
      reply = PayPalRefused ∨ reply = PayPalRaises
  | STRIPE =>
      ∀ cents, int_of_float (amount * 100)%float = Ok cents →
               stripe v (stripe_session cents currency description) = StripeRaises
  | CRYPTO => False
  end.

End PaymentsTerms.

(** ** The start handler *)

Section StartHandlerTerms.
Import EnhancedTravelBot.

(** The collectors after one increment of the command counter's child
    [values]. *)
Definition counted (a : Analytics.t) (values : list string) : Analytics.t :=
  Analytics.Make (Prometheus.inc (Analytics.command_counter a) values)
    (Analytics.payment_counter a) (Analytics.response_time a).

(** The metric names and label names under which the two counters are
    exposed. *)
Definition exposes (a : Analytics.t) : Prop :=
  Prometheus.c_name (Analytics.command_counter a) = "bot_commands_total"
  ∧ Prometheus.c_labelnames (Analytics.command_counter a) = ["command"]
  ∧ Prometheus.c_name (Analytics.payment_counter a) = "payments_total"
  ∧ Prometheus.c_labelnames (Analytics.payment_counter a)
    = ["provider"; "status"].

(** The claim as the spec words it: a [/start] handled through to
    [SELECTING_SERVICE] raises the sample
    [commands_total{command="start"}] by one (a sample not yet shown
    counting as 0). *)
Definition commands_total_claim (update : Telegram.Update) (w : World) : Prop :=
  ∀ w', start update w = (Ok SELECTING_SERVICE, w') →
    Analytics.scrape (analytics w') "commands_total" [("command", "start")]
    = Some (default 0 (Analytics.scrape (analytics w) "commands_total"
                         [("command", "start")]) + 1).





End StartHandlerTerms.

(** Updates and worlds the sample runs start from. *)

Module Runs.
Import EnhancedTravelBot.

(** The database cannot be reached. *)
Definition world_db_down : World :=
  set_db (DatabaseManager.Make [] [] false DatabaseManager.Stored) Sample.world.

(** Sending fails. *)
Definition world_telegram_down : World :=
  set_telegram (Telegram.Make [] false) world_db_down.

Definition ru_start : Telegram.Update := Sample.start_from 42 (Some "ru").
Definition en_start : Telegram.Update := Sample.start_from 42 (Some "en").

End Runs.

(** ** The rate window *)

Section RateWindowTerms.
Import Redis RateLimiter.

(** The sorted set left by one pipeline run on the members [old]:
    [current] recorded under itself, then the scores in
    [0, current - 60] pruned. *)
Definition window_after (old : gmap Z Z) (current : Z) : gmap Z Z :=
  filter (λ e, ¬ in_score_range 0 (current - 60) e)
    (<[current := current]> old).

(** The clock readings of [user_id]'s calls, in call order. *)
Definition times_of (user_id : Z) (calls : list (Z * Z)) : list Z :=
  snd <$> filter (λ c, c.1 = user_id) calls.

(** The integer seconds at which [user_id] called. *)
Definition seconds_of (user_id : Z) (calls : list (Z * Z)) : list Z :=
  int_time <$> times_of user_id calls.

(** Calls are pairs of an identity and a clock reading. *)
Definition earlier (c c' : Z * Z) : Prop := c.2 <= c'.2.

(** Calls in the order of a clock that starts at the epoch and never
    goes back. *)
Definition chronological (calls : list (Z * Z)) : Prop :=
  StronglySorted earlier calls ∧ Forall (λ c, 0 <= c.2) calls.

(** What the keyspace holds for [user_id] after the calls [calls]:
    nothing before the first call; afterwards a sorted set whose
    members are the seconds of this identity's calls inside the window
    of its latest call at [t], each stored once with itself as score,
    and a deadline 60 s after [t]. *)
Definition key_inv (db : gmap Z zkey) (user_id : Z) (calls : list (Z * Z))
  : Prop :=
  (seconds_of user_id calls = [] ∧ db !! user_id = None)
  ∨ ∃ t members,
      (user_id, t) ∈ calls
      ∧ db !! user_id = Some (ZKey members (Some (t + 60 * 1000)))
      ∧ (∀ s, s ∈ seconds_of user_id calls → s <= int_time t)
      ∧ ∀ m sc, members !! m = Some sc ↔
                sc = m ∧ m ∈ seconds_of user_id calls ∧ int_time t - 60 < m.

(** The distinct seconds of [user_id]'s calls that lie in the 60 s
    window ending with a call at [now]. *)
Definition distinct_seconds_in_window (user_id : Z) (calls : list (Z * Z))
    (now : Z) : gset Z :=
  filter (λ s, int_time now - 60 < s) (list_to_set (seconds_of user_id calls)).

End RateWindowTerms.

(** Identity 42 calling 61 times, 160 ms apart: all within 10 s. *)
Definition sixty_one_calls : list (Z * Z) :=
  (λ i, (42, 1700000000000 + 160 * Z.of_nat i)) <$> seq 0 61.

(** Vendors that accept every request. *)
Definition vendors_up : Vendors.t :=
  Vendors.Make None None
    (λ _, Vendors.PayPalCreated "PAY-1" ["https://paypal.example/approve"])
    (λ _, Vendors.StripeCreated "cs_1" "https://stripe.example/pay") [].

Definition world_vendors_up : World := set_vendors vendors_up Sample.world.

(** A limiter that rejects every call. *)
Definition world_no_quota : World :=
  set_rate_limiter (RateLimiter.fresh 0) Sample.world.

(** Identity 42 already has a profile in Russian. *)
Definition world_with_profile : World :=
  set_db
    (DatabaseManager.Make
       [User.Make 1 42 "ru" 1600000000000 (Some 1600000000000) None] [] true
       DatabaseManager.Stored)
    Sample.world.

(** * Properties *)

(** ** PaymentManager.create_payment *)

Section Payments.
Import Vendors PaymentManager.

Variables (amount : float) (currency description : string).

Lemma create_payment_no_branch provider w :
  ¬ has_dispatch_branch provider →
  create_payment amount currency provider description w
  = (Ok None, set_log (log w ++ [unsupported_error provider]) w).
Proof.
  intros Hno. unfold has_dispatch_branch in Hno.
  destruct provider as [[| |]|other]; try reflexivity; tauto.
Qed.

(** C7.  A provider value with no dispatch branch makes
    [create_payment] return [None]; no request reaches PayPal or
    Stripe (the list of vendor calls is unchanged), the only effect
    being one logged [ValueError]. *)
Theorem C7_unsupported_provider_returns_none provider w :
  ¬ has_dispatch_branch provider →
  let '(r, w') := create_payment amount currency provider description w in
  r = Ok None
  ∧ calls (vendors w') = calls (vendors w)
  ∧ vendors w' = vendors w
  ∧ db w' = db w
  ∧ log w' = log w ++ [unsupported_error provider].
Proof.
  intros Hno. rewrite (create_payment_no_branch _ _ Hno). by destruct w.
Qed.

(** C10.  [PaymentProvider.CRYPTO] is a declared member of the enum
    with no dispatch branch: [create_payment] logs the unsupported
    provider error and returns [None] without any vendor call. *)
Theorem C10_crypto_is_unsupported w :
  let '(r, w') := create_payment amount currency (Member CRYPTO) description w in
  r = Ok None
  ∧ calls (vendors w') = calls (vendors w)
  ∧ log w' = log w ++ [unsupported_error (Member CRYPTO)].
Proof. by destruct w. Qed.

(** C8.  When the vendor of a supported provider fails, the result is
    [None]; at most one request was sent (no retry) and the database,
    in particular the transactions table, is what it was. *)
Theorem C8_vendor_failure_returns_none provider w :
  vendor_failure amount currency description provider (vendors w) →
  let '(r, w') := create_payment amount currency (Member provider) description w in
  r = Ok None
  ∧ (∃ sent, calls (vendors w') = calls (vendors w) ++ sent
             ∧ (length sent ≤ 1)%nat)
  ∧ DatabaseManager.transactions (db w') = DatabaseManager.transactions (db w)
  ∧ db w' = db w.
Proof.
  destruct provider; cbn [vendor_failure]; intros Hfail; [| |done].
  - cbv beta iota zeta delta
      [create_payment try_except _create_paypal_payment bind call_paypal
       ret raise logger_error].
    destruct Hfail as [-> | ->]; clear; destruct w; cbn;
      (repeat split; try reflexivity); eexists [_]; split; cbn; done.
  - cbv beta iota zeta delta
      [create_payment try_except _create_stripe_payment bind lift
       call_stripe ret raise logger_error].
    destruct (int_of_float (amount * 100)) as [cents|e] eqn:Hint.
    + rewrite (Hfail cents eq_refl). clear; destruct w; cbn.
      (repeat split; try reflexivity); eexists [_]; split; cbn; done.
    + clear; destruct w; cbn. (repeat split; try reflexivity).
      exists []. split; [by rewrite app_nil_r | cbn; lia].
Qed.

End Payments.

(** At an object that is not an enum member, on the sample world. *)
Lemma C7_witness :
  ¬ has_dispatch_branch (Other "bitcoin")
  ∧ fst (PaymentManager.create_payment 10 "USD" (Other "bitcoin") "Hotels"
           Sample.world) = Ok None.
Proof.
  assert (Hno : ¬ has_dispatch_branch (Other "bitcoin")).
  { intros [H | H]; discriminate H. }
  split; [exact Hno|].
  pose proof (C7_unsupported_provider_returns_none 10 "USD" "Hotels"
                (Other "bitcoin") Sample.world Hno) as H.
  destruct (PaymentManager.create_payment 10 "USD" (Other "bitcoin") "Hotels"
              Sample.world) as [r w'].
  exact (proj1 H).
Defined.

(** PayPal refusing the sample request. *)
Lemma C8_witness :
  vendor_failure 10 "USD" "Hotels" PAYPAL (vendors Sample.world)
  ∧ fst (PaymentManager.create_payment 10 "USD" (Member PAYPAL) "Hotels"
           Sample.world) = Ok None.
Proof.
  assert (Hf : vendor_failure 10 "USD" "Hotels" PAYPAL (vendors Sample.world)).
  { left. reflexivity. }
  split; [exact Hf|].
  pose proof (C8_vendor_failure_returns_none 10 "USD" "Hotels" PAYPAL
                Sample.world Hf) as H.
  destruct (PaymentManager.create_payment 10 "USD" (Member PAYPAL) "Hotels"
              Sample.world) as [r w'].
  exact (proj1 H).
Defined.

(** ** Translations.get_text *)

Section TranslationTable.
Import Translations.

Lemma translations_tables language t :
  translations !! language = Some t →
  t = en ∨ t = ru ∨ t = es ∨ t = zh.
Proof.
  unfold translations.
  rewrite !lookup_insert_Some, lookup_empty.
  intros H. repeat (destruct H as [[_ <-] | [_ H]]; [auto|]).
  discriminate H.
Qed.

Lemma table_entries_nonempty t key v :
  t = en ∨ t = ru ∨ t = es ∨ t = zh →
  t !! key = Some v → v ≠ EmptyString.
Proof.
  intros [-> | [-> | [-> | ->]]]; unfold en, ru, es, zh;
    rewrite !lookup_insert_Some, lookup_empty;
    intros H; repeat (destruct H as [[_ <-] | [_ H]]; [discriminate|]);
    discriminate H.
Qed.

Lemma get_text_unfold key language :
  get_text translations key language
  = match en !! key with
    | Some d =>
        Ok (default d (default en (translations !! language) !! key))
    | None => Raise (KeyError key)
    end.
Proof.
  unfold get_text, getitem.
  replace (translations !! "en") with (Some en) by reflexivity.
  by destruct (en !! key).
Qed.

(** [get_text] raises exactly when the key is missing from the default
    table, whatever the language. *)
Lemma get_text_raises_iff key language :
  (∃ e, get_text translations key language = Raise e) ↔ en !! key = None.
Proof.
  rewrite get_text_unfold. destruct (en !! key); split.
  - intros [e He]; discriminate He.
  - discriminate.
  - done.
  - eauto.
Qed.

(** C6.  For a key of the default ("en") table and any language
    string, [get_text] returns a non-empty string; it is the default
    table's entry when the language is unknown or its table lacks the
    key, and the language's own entry otherwise. *)
Theorem C6_get_text_total_with_fallback key language d :
  en !! key = Some d →
  ∃ s, get_text translations key language = Ok s
       ∧ s ≠ EmptyString
       ∧ (translations !! language = None → s = d)
       ∧ (∀ t, translations !! language = Some t →
               t !! key = None → s = d)
       ∧ (∀ t v, translations !! language = Some t →
                 t !! key = Some v → s = v).
Proof.
  intros Hd. rewrite get_text_unfold, Hd.
  eexists; split; [reflexivity|].
  assert (Hd_ne : d ≠ EmptyString).
  { eapply table_entries_nonempty; [by left | exact Hd]. }
  destruct (translations !! language) as [t|] eqn:Ht; cbn.
  - destruct (t !! key) as [v|] eqn:Hv; cbn.
    + split.
      { eapply table_entries_nonempty;
          [by eapply translations_tables | exact Hv]. }
      repeat split; intros; simplify_eq; reflexivity.
    + repeat split; intros; simplify_eq; done.
  - rewrite Hd. cbn. repeat split; intros; simplify_eq; done.
Qed.

End TranslationTable.

(** The welcome text asked for in a language the table does not have. *)
Lemma C6_witness :
  Translations.en !! "welcome" = Some "Welcome to Travel Assistant!"
  ∧ Translations.get_text Translations.translations "welcome" "de"
    = Ok "Welcome to Travel Assistant!".
Proof.
  assert (Hd : Translations.en !! "welcome"
               = Some "Welcome to Travel Assistant!") by reflexivity.
  split; [exact Hd|].
  destruct (C6_get_text_total_with_fallback "welcome" "de" _ Hd)
    as (s & Hs & _ & Hnone & _).
  rewrite Hs. f_equal. apply Hnone. reflexivity.
Defined.

(** ** Config.validate *)

Section Validation.
Import Config.

Lemma validate_true_iff env :
  validate env = true ↔
  ∀ var, var ∈ required_vars → truthy (getenv env var) = true.
Proof.
  unfold validate. rewrite forallb_forall.
  split; intros H var Hin; apply H; by apply list_elem_of_In.
Qed.

Lemma truthy_true_iff v :
  truthy v = true ↔ ∃ s, v = Some s ∧ s ≠ EmptyString.
Proof.
  destruct v as [[|c s]|]; cbn; split.
  - discriminate.
  - intros (s & [= <-] & Hs). done.
  - intros _. eexists; split; [reflexivity | discriminate].
  - done.
  - discriminate.
  - intros (s & H & _). discriminate H.
Qed.

(** Every variable of [required_vars] that is unset or empty makes
    [validate] return false. *)
Lemma validate_false_of_missing env var :
  var ∈ required_vars →
  getenv env var = None ∨ getenv env var = Some EmptyString →
  validate env = false.
Proof.
  intros Hin Hmiss. apply not_true_is_false. intros Hv.
  pose proof (proj1 (validate_true_iff env) Hv var Hin) as Ht.
  destruct Hmiss as [Hm | Hm]; rewrite Hm in Ht; discriminate Ht.
Qed.

(** C3.  With the bot token, the two connection strings, the PayPal
    client id and the Stripe key set, and PAYPAL_CLIENT_SECRET unset,
    [validate] returns true, although the configuration built from
    this environment hands PayPal a missing client secret. *)
Theorem C3_validate_ignores_paypal_secret :
  getenv Sample.env "PAYPAL_CLIENT_SECRET" = None
  ∧ validate Sample.env = true
  ∧ (∃ cfg, main_configuration (λ _, 60) Sample.env = Some cfg
            ∧ PAYPAL_CLIENT_SECRET cfg = None)
  ∧ "PAYPAL_CLIENT_SECRET" ∉ required_vars.
Proof.
  split; [reflexivity|]. split; [reflexivity|].
  split; [eexists; split; reflexivity|].
  unfold required_vars. rewrite !elem_of_cons, elem_of_nil.
  intros H. repeat (destruct H as [H | H]; [discriminate H|]). exact H.
Qed.

End Validation.

(** ** EnhancedTravelBot.start *)

Section StartHandler.
Import EnhancedTravelBot.

(** The object a successful [create_user] hands back is never a loaded
    one. *)
Lemma create_user_detached d telegram_id language utcnow utcnow' user d' :
  DatabaseManager.create_user d telegram_id language utcnow utcnow'
  = (Ok user, d') →
  user = User.Detached.
Proof.
  unfold DatabaseManager.create_user.
  destruct (DatabaseManager.available d); [|discriminate].
  destruct (DatabaseManager.fit_column _ _ _); [|discriminate].
  case_decide; [discriminate|]. by intros [= <- _].
Qed.

(** The steps behind a run of the [try] body that ends in
    [SELECTING_SERVICE]: the limiter allowed the call, the command was
    counted, the identity's profile was found in the table, the welcome
    text was rendered in its language and delivered. *)
Lemma start_body_selecting update w w' :
  start_body update w = (Ok SELECTING_SERVICE, w') →
  ∃ u rl values row welcome m tg,
    Telegram.effective_user update = Some u
    ∧ RateLimiter.check_rate_limit (rate_limiter w) (Telegram.id u) (clock w)
      = (Ok true, rl)
    ∧ Prometheus.labels (Analytics.command_counter (analytics w))
        [("command", "start")] = Ok values
    ∧ DatabaseManager.get_user (db w) (Telegram.id u) = Ok (Some row)
    ∧ Translations.get_text (translations w) "welcome" (User.language row)
      = Ok welcome
    ∧ Telegram.message update = Some m
    ∧ Telegram.reply_text (telegram w) m welcome (Some Telegram.MARKDOWN)
        (Some (_get_keyboard (User.language row))) = (Ok tt, tg)
    ∧ w' = MkWorld (clock w) (utcnow w) (config w) (db w)
             (counted (analytics w) values) rl
             (translations w) (vendors w) tg (log w).
Proof.
  intros H.
  cbv beta iota zeta delta
    [start_body bind attr check_rate_limit count_command get_user
     create_user get_text reply_text ret raise lift] in H.
  destruct (Telegram.effective_user update) as [u|] eqn:Hu;
    [|discriminate H].
  destruct (RateLimiter.check_rate_limit _ _ _) as [[[|]|e] rl] eqn:Hrl;
    cbn in H; [| |discriminate H].
  2:{ destruct (Telegram.message update); cbn in H; [|discriminate H].
      destruct (Telegram.reply_text _ _ _ _ _) as [[|] ?]; cbn in H;
        discriminate H. }
  destruct (Prometheus.labels _ _) as [values|e] eqn:Hlab; cbn in H;
    [|discriminate H].
  destruct (DatabaseManager.get_user _ _) as [found|e] eqn:Hget; cbn in H;
    [|discriminate H].
  destruct found as [row|]; cbn in H.
  - destruct (Translations.get_text _ _ _) as [welcome|e] eqn:Htext;
      [|discriminate H].
    destruct (Telegram.message update) as [m|] eqn:Hm; cbn in H;
      [|discriminate H].
    destruct (Telegram.reply_text _ _ _ _ _) as [[[]|e] tg] eqn:Hsend;
      cbn in H; [|discriminate H].
    injection H as <-.
    exists u, rl, values, row, welcome, m, tg.
    repeat split; assumption.
  - destruct (DatabaseManager.create_user _ _ _ _ _) as [[user|e] d]
      eqn:Hcreate; cbn in H; [|discriminate H].
    apply create_user_detached in Hcreate as ->. discriminate H.
Qed.

(** The handler of [start] only ever answers [END]: a run of [start]
    that ends in [SELECTING_SERVICE] is a run of the body. *)
Lemma start_selecting update w w' :
  start update w = (Ok SELECTING_SERVICE, w') →
  start_body update w = (Ok SELECTING_SERVICE, w').
Proof.
  unfold start, try_except.
  destruct (start_body update w) as [[st|e] w1]; [done|].
  cbv beta iota zeta delta [bind logger_error _handle_error reply_text ret].
  destruct (Telegram.effective_message update) as [m|]; [|discriminate].
  destruct (Telegram.reply_text _ _ _ _ _) as [[[]|e'] tg]; discriminate.
Qed.

(** *** The command counter *)

Lemma init_exposes : exposes Analytics.init.
Proof. by repeat split. Qed.

Lemma labels_command c v :
  Prometheus.c_labelnames c = ["command"] →
  Prometheus.labels c [("command", v)] = Ok [v].
Proof. intros H. unfold Prometheus.labels. by rewrite H. Qed.

Lemma scrape_bot_commands_total a v :
  exposes a →
  Analytics.scrape a "bot_commands_total" [("command", v)]
  = Prometheus.c_children (Analytics.command_counter a) !! [v].
Proof.
  intros (Hn & Hl & _).
  destruct a as [[name doc labelnames children] payments histogram].
  cbn in Hn, Hl. by subst.
Qed.

Lemma scrape_commands_total a kwargs :
  exposes a → Analytics.scrape a "commands_total" kwargs = None.
Proof.
  intros (Hn & _ & Hp & _).
  destruct a as [[name doc labelnames children] [pname pdoc plabels pch] h].
  cbn in Hn, Hp. by subst.
Qed.

(** C5, as amended.  The command counter is exposed as
    [bot_commands_total] with label [command], the payment counter as
    [payments_total] with labels [provider] and [status]; a [/start]
    that is handled through to [SELECTING_SERVICE] raises
    [bot_commands_total{command="start"}] by exactly 1 (a sample not
    yet shown counting as 0) and leaves the payment counter alone; no
    metric named [commands_total] exists. *)
Theorem C5_start_counts_bot_commands_total update w w' :
  exposes (analytics w) →
  start update w = (Ok SELECTING_SERVICE, w') →
  exposes Analytics.init
  ∧ exposes (analytics w')
  ∧ Analytics.scrape (analytics w') "bot_commands_total"
      [("command", "start")]
    = Some (default 0 (Analytics.scrape (analytics w) "bot_commands_total"
                         [("command", "start")]) + 1)
  ∧ Analytics.payment_counter (analytics w')
    = Analytics.payment_counter (analytics w)
  ∧ (∀ kwargs, Analytics.scrape (analytics w') "commands_total" kwargs = None).
Proof.
  intros Hexp Hstart.
  apply start_selecting, start_body_selecting in Hstart
    as (u & rl & values & row & welcome & m & tg
        & _ & _ & Hlab & _ & _ & _ & _ & ->).
  pose proof Hexp as (Hn & Hl & Hp & Hpl).
  rewrite (labels_command _ _ Hl) in Hlab. injection Hlab as <-.
  assert (Hexp' : exposes (counted (analytics w) ["start"])).
  { by repeat split. }
  split; [exact init_exposes|]. split; [exact Hexp'|]. split.
  - cbn [analytics].
    rewrite (scrape_bot_commands_total _ _ Hexp),
      (scrape_bot_commands_total _ _ Hexp').
    unfold counted, Prometheus.inc, Prometheus.value. cbn.
    by rewrite lookup_insert_eq.
  - split; [reflexivity|].
    intros kwargs. by apply scrape_commands_total.
Qed.

(** *** The language of a new profile *)




(** *** Exceptions in the handler *)



End StartHandler.

(** *** The sample runs *)

Section RunsFacts.
Import EnhancedTravelBot Runs.

(** Identity 42 has a profile: its [/start] is handled through. *)
Lemma known_start_selecting :
  start ru_start world_with_profile
  = (Ok SELECTING_SERVICE, snd (start ru_start world_with_profile)).
Proof. vm_compute. reflexivity. Qed.

(** When the error reply itself cannot be sent, the exception leaves
    [start]. *)
Example start_escapes_when_error_reply_fails :
  fst (start en_start world_telegram_down) = Raise NetworkError.
Proof. reflexivity. Qed.

End RunsFacts.

(** Identity 42, which has a profile, sends [/start]: the welcome is
    delivered, [bot_commands_total] shows 1 and [commands_total] is
    still not a metric. *)
Lemma C5_counterexample :
  fst (EnhancedTravelBot.start Runs.ru_start world_with_profile)
  = Ok SELECTING_SERVICE
  ∧ Analytics.scrape
      (analytics (snd (EnhancedTravelBot.start Runs.ru_start
                         world_with_profile)))
      "commands_total" [("command", "start")] = None
  ∧ ¬ commands_total_claim Runs.ru_start world_with_profile.
Proof.
  split; [reflexivity|]. split; [reflexivity|].
  intros Hclaim.
  pose proof (Hclaim _ known_start_selecting) as Hafter.
  vm_compute in Hafter. discriminate Hafter.
Qed.

Lemma C5_witness :
  exposes (analytics world_with_profile)
  ∧ EnhancedTravelBot.start Runs.ru_start world_with_profile
    = (Ok SELECTING_SERVICE,
       snd (EnhancedTravelBot.start Runs.ru_start world_with_profile))
  ∧ Analytics.scrape
      (analytics (snd (EnhancedTravelBot.start Runs.ru_start
                         world_with_profile)))
      "bot_commands_total" [("command", "start")] = Some 1.
Proof.
  split; [exact init_exposes|]. split; [exact known_start_selecting|].
  destruct (C5_start_counts_bot_commands_total Runs.ru_start
              world_with_profile _ init_exposes known_start_selecting)
    as (_ & _ & Hafter & _).
  rewrite Hafter. reflexivity.
Defined.





(** ** RateLimiter.check_rate_limit *)

Section RateWindow.
Import Redis RateLimiter.

Lemma live_ttl db key now k :
  live db key now = Some k →
  db !! key = Some k
  ∧ (zexpire_at k = None ∨ ∃ d, zexpire_at k = Some d ∧ now <= d).
Proof.
  unfold live. destruct (db !! key) as [k'|]; [|discriminate].
  destruct (zexpire_at k') as [d|] eqn:Hd.
  - case_decide; [discriminate|]. intros [= <-].
    split; [done|]. right. exists d. split; [done | lia].
  - intros [= <-]. auto.
Qed.

Lemma live_insert db key now members ttl :
  (ttl = None ∨ ∃ d, ttl = Some d ∧ now <= d) →
  live (<[key := ZKey members ttl]> db) key now = Some (ZKey members ttl).
Proof.
  intros Httl. unfold live. rewrite lookup_insert_eq. cbn.
  destruct Httl as [-> | (d & -> & Hd)]; [done|].
  case_decide; [lia | done].
Qed.

Lemma window_after_current old current :
  window_after old current !! current = Some current.
Proof.
  unfold window_after. apply map_lookup_filter_Some. split.
  - apply lookup_insert_eq.
  - unfold in_score_range. cbn. lia.
Qed.

(** One pipeline run, seen from the keys: the caller's key holds the
    new window with a fresh 60 s deadline, [results[2]] is its size,
    and no other key changes. *)
Lemma pipeline_spec db user_id now :
  let window :=
    window_after (from_option zmembers ∅ (live db user_id now))
      (int_time now) in
  ∃ db' r0 r1,
    pipeline db user_id now = (db', (r0, r1, Z.of_nat (size window), 1))
    ∧ db' !! user_id = Some (ZKey window (Some (now + 60 * 1000)))
    ∧ ∀ other, other ≠ user_id → db' !! other = db !! other.
Proof.
  intros window. unfold pipeline, rate_limit_key, zadd.
  set (old := live db user_id now) in *.
  set (current := int_time now) in *.
  set (members1 := <[current := current]> (from_option zmembers ∅ old)).
  set (ttl := old ≫= zexpire_at).
  assert (Httl : ttl = None ∨ ∃ d, ttl = Some d ∧ now <= d).
  { unfold ttl. destruct old as [k|] eqn:Hold; cbn; [|by left].
    by destruct (live_ttl _ _ _ _ Hold) as [_ H]. }
  unfold zremrangebyscore. rewrite (live_insert _ _ _ _ _ Httl). cbn.
  fold (window_after (from_option zmembers ∅ old) current). fold window.
  assert (Hne : window ≠ ∅).
  { intros Hempty.
    pose proof (window_after_current (from_option zmembers ∅ old) current)
      as Hcur.
    fold window in Hcur. rewrite Hempty, lookup_empty in Hcur.
    discriminate Hcur. }
  rewrite (decide_False _ _ Hne).
  unfold zcard, expire. rewrite !(live_insert _ _ _ _ _ Httl). cbn.
  eexists _, _, _. split; [reflexivity|]. split.
  - by rewrite lookup_insert_eq.
  - intros other Hother. by rewrite !lookup_insert_ne.
Qed.

Lemma window_after_lookup old current m sc :
  window_after old current !! m = Some sc ↔
  ((m = current ∧ sc = current) ∨ (m ≠ current ∧ old !! m = Some sc))
  ∧ ¬ (0 <= sc <= current - 60).
Proof.
  unfold window_after.
  rewrite map_lookup_filter_Some, lookup_insert_Some.
  unfold in_score_range. cbn. intuition (subst; auto).
Qed.

(** *** Runs of calls *)

Lemma chronological_snoc calls c :
  chronological (calls ++ [c]) →
  chronological calls ∧ 0 <= c.2
  ∧ ∀ c0, c0 ∈ calls → 0 <= c0.2 <= c.2.
Proof.
  intros [Hsorted Hpos].
  apply StronglySorted_app in Hsorted as (Hle & Hl & _).
  apply Forall_app in Hpos as [Hpos Hc].
  rewrite Forall_singleton in Hc.
  split; [by split|]. split; [exact Hc|].
  intros c0 Hin. split.
  - by apply (proj1 (Forall_forall _ _) Hpos).
  - apply (Hle c0 c Hin). by apply list_elem_of_singleton.
Qed.

Lemma int_time_mono a b :
  0 <= a <= b → 0 <= int_time a <= int_time b.
Proof.
  intros [Ha Hab]. unfold int_time. split.
  - apply Z.quot_pos; lia.
  - apply Z.quot_le_mono; lia.
Qed.

Lemma int_time_after_ttl a b :
  0 <= a → a + 60 * 1000 <= b → int_time a + 60 <= int_time b.
Proof.
  intros Ha Hab. unfold int_time.
  rewrite !Z.quot_div_nonneg by lia.
  rewrite <- Z.div_add by lia.
  apply Z.div_le_mono; lia.
Qed.

Lemma elem_of_seconds_of user_id calls s :
  s ∈ seconds_of user_id calls ↔
  ∃ t, (user_id, t) ∈ calls ∧ s = int_time t.
Proof.
  unfold seconds_of, times_of. rewrite list_elem_of_fmap. split.
  - intros (t & -> & Ht). apply list_elem_of_fmap in Ht as ([u t'] & -> & Hc).
    apply list_elem_of_filter in Hc as [Hu Hc]. cbn in Hu. subst u.
    by exists t'.
  - intros (t & Hc & ->). exists t. split; [done|].
    apply list_elem_of_fmap. exists (user_id, t). split; [done|].
    by apply list_elem_of_filter.
Qed.

Lemma seconds_of_snoc user_id calls caller now s :
  s ∈ seconds_of user_id (calls ++ [(caller, now)]) ↔
  s ∈ seconds_of user_id calls ∨ (caller = user_id ∧ s = int_time now).
Proof.
  rewrite !elem_of_seconds_of. split.
  - intros (t & Hin & ->). apply elem_of_app in Hin as [Hin | Hin].
    + left. by exists t.
    + apply list_elem_of_singleton in Hin. injection Hin as -> ->. by right.
  - intros [(t & Hin & ->) | [-> ->]].
    + exists t. split; [|done]. apply elem_of_app. by left.
    + exists now. split; [|done]. apply elem_of_app. right.
      by apply list_elem_of_singleton.
Qed.

Lemma seconds_of_bounds user_id calls c s :
  chronological (calls ++ [c]) →
  s ∈ seconds_of user_id calls → 0 <= s <= int_time c.2.
Proof.
  intros Hchr Hs. apply chronological_snoc in Hchr as (_ & _ & Hle).
  apply elem_of_seconds_of in Hs as (t & Hin & ->).
  apply int_time_mono. exact (Hle _ Hin).
Qed.

(** The window written by a call of [user_id] at [now], given what
    the key held before. *)
Lemma step_window db user_id calls now m sc :
  chronological (calls ++ [(user_id, now)]) →
  key_inv db user_id calls →
  window_after (from_option zmembers ∅ (live db user_id now))
    (int_time now) !! m = Some sc ↔
  sc = m ∧ m ∈ seconds_of user_id (calls ++ [(user_id, now)])
  ∧ int_time now - 60 < m.
Proof.
  intros Hchr Hinv.
  pose proof (λ s, seconds_of_bounds user_id calls _ s Hchr) as Hbound.
  cbn in Hbound.
  pose proof (chronological_snoc _ _ Hchr) as (_ & Hnow & Hle).
  cbn in Hnow.
  rewrite window_after_lookup, seconds_of_snoc.
  destruct Hinv as [[Hnil Hnone] | (t & members & Hin & Hkey & Hmax & Hmem)].
  - unfold live. rewrite Hnone. cbn. rewrite lookup_empty, Hnil.
    split.
    + intros [[[-> ->] | [_ H]] _]; [|discriminate H].
      split; [done|]. split; [by right | lia].
    + intros (-> & [H | [_ ->]] & Hlt); [by apply elem_of_nil in H|].
      split; [by left | lia].
  - pose proof (Hle _ Hin) as Ht. cbn in Ht.
    unfold live. rewrite Hkey. cbn. case_decide as Hexp; cbn.
    + pose proof (int_time_after_ttl t now (proj1 Ht) ltac:(lia)) as Hfar.
      rewrite lookup_empty. split.
      * intros [[[-> ->] | [_ H]] _]; [|discriminate H].
        split; [done|]. split; [by right | lia].
      * intros (-> & [H | [_ ->]] & Hlt).
        -- pose proof (Hmax _ H). lia.
        -- split; [by left | lia].
    + pose proof (int_time_mono t now Ht) as Hmono.
      rewrite Hmem. split.
      * intros [[[-> ->] | [Hne (-> & Hs & Hlt)]] Hout].
        -- split; [done|]. split; [by right | lia].
        -- split; [done|]. split; [by left|].
           pose proof (Hbound _ Hs). lia.
      * intros (-> & [Hs | [_ ->]] & Hlt).
        -- split; [|lia].
           destruct (decide (m = int_time now)) as [-> | Hne];
             [by left | right].
           split; [done|]. split; [done|]. split; [done | lia].
        -- split; [by left | lia].
Qed.

Lemma check_rate_limit_reachable db lim user_id now :
  let window :=
    window_after (from_option zmembers ∅ (live db user_id now))
      (int_time now) in
  ∃ db',
    check_rate_limit (Make (Conn db true) lim) user_id now
    = (Ok (bool_decide (Z.of_nat (size window) <= lim)),
       Make (Conn db' true) lim)
    ∧ db' !! user_id = Some (ZKey window (Some (now + 60 * 1000)))
    ∧ ∀ other, other ≠ user_id → db' !! other = db !! other.
Proof.
  intros window.
  destruct (pipeline_spec db user_id now) as (db' & r0 & r1 & Hp & Hkey & Hother).
  exists db'. unfold check_rate_limit.
  cbn [redis reachable keyspace limit]. rewrite Hp.
  by repeat split.
Qed.

Lemma run_app self calls1 calls2 :
  run self (calls1 ++ calls2)
  = let '(replies1, self1) := run self calls1 in
    let '(replies2, self2) := run self1 calls2 in
    (replies1 ++ replies2, self2).
Proof.
  revert self. induction calls1 as [|[user_id now] calls1 IH]; intros self; cbn.
  - by destruct (run self calls2).
  - destruct (check_rate_limit self user_id now) as [r self'].
    rewrite IH. destruct (run self' calls1) as [replies1 self1].
    by destruct (run self1 calls2).
Qed.

Lemma key_inv_other db db' user_id caller calls now :
  caller ≠ user_id →
  db' !! user_id = db !! user_id →
  key_inv db user_id calls →
  key_inv db' user_id (calls ++ [(caller, now)]).
Proof.
  intros Hne Hsame Hinv.
  assert (Hsec : ∀ s, s ∈ seconds_of user_id (calls ++ [(caller, now)])
                      ↔ s ∈ seconds_of user_id calls).
  { intros s. rewrite seconds_of_snoc. tauto. }
  destruct Hinv as [[Hnil Hnone] | (t & members & Hin & Hkey & Hmax & Hmem)].
  - left. split; [|congruence].
    destruct (seconds_of user_id (calls ++ [(caller, now)])) as [|s l] eqn:E;
      [done|].
    exfalso. assert (Hs : s ∈ seconds_of user_id calls).
    { apply Hsec. by left. }
    rewrite Hnil in Hs. by apply elem_of_nil in Hs.
  - right. exists t, members. split; [apply elem_of_app; by left|].
    split; [congruence|]. split.
    + intros s Hs. by apply Hmax, Hsec.
    + intros m sc. rewrite Hmem, Hsec. tauto.
Qed.

(** Every run of chronological calls on a fresh limiter keeps the
    server reachable, the ceiling unchanged and the invariant of every
    identity's key. *)
Lemma run_inv lim calls :
  chronological calls →
  ∃ replies db,
    run (fresh lim) calls = (replies, Make (Conn db true) lim)
    ∧ ∀ user_id, key_inv db user_id calls.
Proof.
  induction calls as [|[caller now] calls IH] using rev_ind; intros Hchr.
  - exists [], ∅. split; [reflexivity|]. intros user_id. by left.
  - pose proof (chronological_snoc _ _ Hchr) as (Hprefix & _ & _).
    destruct (IH Hprefix) as (replies & db & Hrun & Hinv).
    destruct (check_rate_limit_reachable db lim caller now)
      as (db' & Hcheck & Hkey & Hother).
    exists (replies ++ [Ok (bool_decide
              (Z.of_nat (size (window_after
                 (from_option zmembers ∅ (live db caller now))
                 (int_time now))) <= lim))]), db'.
    split.
    + rewrite run_app, Hrun. cbn [run]. by rewrite Hcheck.
    + intros user_id. destruct (decide (caller = user_id)) as [-> | Hne].
      * right. eexists now, _. split; [apply elem_of_app; right; by left|].
        split; [exact Hkey|]. split.
        -- intros s Hs. apply seconds_of_snoc in Hs as [Hs | [_ ->]]; [|lia].
           by apply (seconds_of_bounds user_id calls (user_id, now) s Hchr).
        -- intros m sc. apply step_window; [exact Hchr | apply Hinv].
      * apply (key_inv_other db); [done | by apply Hother | apply Hinv].
Qed.

Lemma size_of_window (members : gmap Z Z) user_id calls now :
  (∀ m sc, members !! m = Some sc ↔
           sc = m ∧ m ∈ seconds_of user_id calls ∧ int_time now - 60 < m) →
  dom members = distinct_seconds_in_window user_id calls now
  ∧ size members = size (distinct_seconds_in_window user_id calls now).
Proof.
  intros Hmem.
  assert (Hdom : dom members = distinct_seconds_in_window user_id calls now).
  { apply set_eq. intros m. unfold distinct_seconds_in_window.
    rewrite elem_of_dom, elem_of_filter, elem_of_list_to_set. split.
    - intros [sc Hsc]. apply Hmem in Hsc as (_ & ? & ?). done.
    - intros [Hlt Hs]. exists m. by apply Hmem. }
  split; [exact Hdom|]. by rewrite <- Hdom, size_dom.
Qed.

(** The last call of a chronological run, made by [user_id] at
    [now]: its reply compares the size of the window it wrote with the
    ceiling, and the window is the pruned set of seconds. *)
Lemma run_last_call lim calls user_id now :
  chronological (calls ++ [(user_id, now)]) →
  ∃ replies db members,
    run (fresh lim) (calls ++ [(user_id, now)])
    = (replies ++ [Ok (bool_decide (Z.of_nat (size members) <= lim))],
       Make (Conn db true) lim)
    ∧ db !! user_id = Some (ZKey members (Some (now + 60 * 1000)))
    ∧ ∀ m sc, members !! m = Some sc ↔
              sc = m
              ∧ m ∈ seconds_of user_id (calls ++ [(user_id, now)])
              ∧ int_time now - 60 < m.
Proof.
  intros Hchr.
  pose proof (chronological_snoc _ _ Hchr) as (Hprefix & _ & _).
  destruct (run_inv lim calls Hprefix) as (replies & db & Hrun & Hinv).
  destruct (check_rate_limit_reachable db lim user_id now)
    as (db' & Hcheck & Hkey & _).
  eexists replies, db', _. split; [|split; [exact Hkey|]].
  - rewrite run_app, Hrun. cbn [run]. by rewrite Hcheck.
  - intros m sc. apply step_window; [exact Hchr | apply Hinv].
Qed.

Lemma window_within_sixty_seconds (members : gmap Z Z) current :
  (∀ m, m ∈ dom members → current - 60 < m <= current) →
  (size members <= 60)%nat.
Proof.
  intros Hrange. rewrite <- size_dom.
  transitivity (size (list_to_set (C := gset Z) (seqZ (current - 59) 60))).
  - apply subseteq_size. intros m Hm. apply elem_of_list_to_set.
    apply elem_of_seqZ. specialize (Hrange m Hm). lia.
  - rewrite size_list_to_set by apply NoDup_seqZ.
    rewrite length_seqZ. lia.
Qed.

(** With a ceiling of 60 or more, no call of a chronological run on a
    fresh limiter is ever rejected: a 60 s window holds at most 60
    distinct integer seconds. *)
Lemma check_rate_limit_never_rejects lim calls user_id now :
  60 <= lim →
  chronological (calls ++ [(user_id, now)]) →
  last (fst (run (fresh lim) (calls ++ [(user_id, now)]))) = Some (Ok true).
Proof.
  intros Hlim Hchr.
  destruct (run_last_call lim calls user_id now Hchr)
    as (replies & db & members & Hrun & _ & Hmem).
  rewrite Hrun. cbn [fst]. rewrite last_snoc. do 2 f_equal.
  apply bool_decide_eq_true.
  assert (size members <= 60)%nat; [|lia].
  apply (window_within_sixty_seconds _ (int_time now)).
  intros m [sc Hsc]%elem_of_dom. apply Hmem in Hsc as (_ & Hs & Hlt).
  split; [exact Hlt|].
  apply seconds_of_snoc in Hs as [Hs | [_ ->]]; [|lia].
  by apply (seconds_of_bounds user_id calls (user_id, now) m Hchr).
Qed.

(** C9.  After any chronological run of calls on a fresh limiter that
    ends with a call of [user_id] at [now], the identity's sorted set
    holds exactly the distinct integer seconds of its calls in the
    trailing 60 s, each once and scored by itself; the count the
    check compares with the ceiling is the number of those seconds,
    and it is 1 when all of the identity's calls fell in one second. *)
Theorem C9_window_counts_distinct_seconds lim calls user_id now :
  chronological (calls ++ [(user_id, now)]) →
  let all := calls ++ [(user_id, now)] in
  let window := distinct_seconds_in_window user_id all now in
  ∃ replies self' k,
    run (fresh lim) all = (replies, self')
    ∧ keyspace (redis self') !! rate_limit_key user_id = Some k
    ∧ (∀ m sc, zmembers k !! m = Some sc ↔ sc = m ∧ m ∈ window)
    ∧ zcard (keyspace (redis self')) (rate_limit_key user_id) now
      = Z.of_nat (size window)
    ∧ last replies = Some (Ok (bool_decide (Z.of_nat (size window) <= lim)))
    ∧ ((∀ t, t ∈ times_of user_id calls → int_time t = int_time now) →
       size window = 1%nat).
Proof.
  intros Hchr all window.
  destruct (run_last_call lim calls user_id now Hchr)
    as (replies & db & members & Hrun & Hkey & Hmem).
  destruct (size_of_window members user_id all now Hmem) as [Hdom Hsize].
  fold window in Hdom, Hsize.
  eexists _, _, (ZKey members _). split; [exact Hrun|].
  cbn [redis keyspace zmembers]. unfold rate_limit_key.
  split; [exact Hkey|]. split; [|split; [|split]].
  - intros m sc. rewrite Hmem. unfold window, distinct_seconds_in_window.
    rewrite elem_of_filter, elem_of_list_to_set. tauto.
  - unfold zcard, live. rewrite Hkey. cbn.
    rewrite decide_False by lia. cbn. by rewrite Hsize.
  - by rewrite last_snoc, Hsize.
  - intros Hsame. replace window with ({[int_time now]} : gset Z);
      [apply size_singleton|].
    apply set_eq. intros m. unfold window, distinct_seconds_in_window.
    rewrite elem_of_singleton, elem_of_filter, elem_of_list_to_set.
    unfold all. rewrite seconds_of_snoc. split.
    + intros ->. split; [lia|]. by right.
    + intros [_ [Hs | [_ ->]]]; [|done].
      apply list_elem_of_fmap in Hs as (t & -> & Ht). by apply Hsame.
Qed.

End RateWindow.

(** Three calls of identity 42 inside one second leave one entry. *)
Lemma C9_witness :
  chronological
    ([(42, 1700000000100); (42, 1700000000500)] ++ [(42, 1700000000900)])
  ∧ Redis.zcard
      (Redis.keyspace
         (RateLimiter.redis
            (snd (RateLimiter.run (RateLimiter.fresh 60)
                    [(42, 1700000000100); (42, 1700000000500);
                     (42, 1700000000900)]))))
      (RateLimiter.rate_limit_key 42) 1700000000900
    = 1.
Proof.
  assert (Hchr : chronological
            ([(42, 1700000000100); (42, 1700000000500)]
             ++ [(42, 1700000000900)])).
  { split.
    - repeat constructor; unfold earlier; cbn; lia.
    - repeat constructor; cbn; lia. }
  split; [exact Hchr|].
  destruct (C9_window_counts_distinct_seconds 60 _ 42 _ Hchr)
    as (replies & self' & k & Hrun & _ & _ & Hcard & _ & Hone).
  cbn [app] in Hrun. rewrite Hrun. cbn [snd]. rewrite Hcard.
  rewrite Hone; [reflexivity|].
  intros t Ht. cbn in Ht.
  apply elem_of_cons in Ht as [-> | Ht]; [reflexivity|].
  apply list_elem_of_singleton in Ht as ->. reflexivity.
Defined.

(** *** The default ceiling *)

(** C1.  With the default ceiling of 60, the 61st of 61 calls made by
    one identity within 10 s is accepted, as are the 60 before it: the
    window counts seconds, of which these calls span ten. *)
Theorem C1_sixty_first_call_is_accepted :
  length sixty_one_calls = 61%nat
  ∧ Forall (λ c, c.1 = 42 ∧ 1700000000000 <= c.2 < 1700000000000 + 10 * 1000)
      sixty_one_calls
  ∧ fst (RateLimiter.run (RateLimiter.fresh Config.default_rate_limit)
           sixty_one_calls)
    = replicate 61 (Ok true)
  ∧ last (fst (RateLimiter.run (RateLimiter.fresh Config.default_rate_limit)
                 sixty_one_calls))
    = Some (Ok true).
Proof.
  split; [reflexivity|]. split.
  - apply Forall_forall. intros c Hc.
    apply list_elem_of_fmap in Hc as (i & -> & Hi). cbn.
    apply elem_of_seq in Hi. lia.
  - split; vm_compute; reflexivity.
Qed.

(** ** More on the rate window *)

Section RateWindowRuns.
Import Redis RateLimiter.

Lemma chronological_filter (P : Z * Z → Prop) `{!∀ c, Decision (P c)} calls :
  chronological calls → chronological (filter P calls).
Proof.
  intros [Hsorted Hpos]. split.
  - induction Hsorted as [|c calls Hsorted IH Hall]; [constructor|].
    assert (Hpos' : Forall (λ c, 0 <= c.2) calls) by (by inversion Hpos).
    destruct (decide (P c)) as [Hc | Hc].
    + rewrite filter_cons_True by done. constructor; [by apply IH|].
      apply Forall_forall. intros c' [_ Hin]%list_elem_of_filter.
      by apply (proj1 (Forall_forall _ _) Hall).
    + rewrite filter_cons_False by done. by apply IH.
  - apply Forall_forall. intros c [_ Hin]%list_elem_of_filter.
    by apply (proj1 (Forall_forall _ _) Hpos).
Qed.

Lemma seconds_of_own_calls user_id calls caller now s :
  s ∈ seconds_of user_id (filter (λ c, c.1 = user_id) calls ++ [(caller, now)])
  ↔ s ∈ seconds_of user_id (calls ++ [(caller, now)]).
Proof.
  rewrite !seconds_of_snoc, !elem_of_seconds_of. split.
  - intros [(t & [_ Hin]%list_elem_of_filter & ->) | Hnow]; [|by right].
    left. by exists t.
  - intros [(t & Hin & ->) | Hnow]; [|by right].
    left. exists t. split; [|done]. by apply list_elem_of_filter.
Qed.

(** Identities do not share a window: the reply to a call is the one
    the caller would get had no other identity ever called. *)
Theorem check_rate_limit_ignores_other_identities lim calls user_id now :
  chronological (calls ++ [(user_id, now)]) →
  last (fst (run (fresh lim) (calls ++ [(user_id, now)])))
  = last (fst (run (fresh lim)
                 (filter (λ c, c.1 = user_id) calls ++ [(user_id, now)]))).
Proof.
  intros Hchr.
  assert (Hown : chronological
            (filter (λ c, c.1 = user_id) calls ++ [(user_id, now)])).
  { replace (filter (λ c, c.1 = user_id) calls ++ [(user_id, now)])
      with (filter (λ c, c.1 = user_id) (calls ++ [(user_id, now)])).
    - by apply chronological_filter.
    - rewrite filter_app. f_equal. by rewrite filter_cons_True. }
  destruct (run_last_call lim _ _ _ Hchr)
    as (replies & db & members & Hrun & _ & Hmem).
  destruct (run_last_call lim _ _ _ Hown)
    as (replies' & db' & members' & Hrun' & _ & Hmem').
  rewrite Hrun, Hrun'. cbn [fst]. rewrite !last_snoc.
  assert (size members = size members') as ->; [|done].
  rewrite <- !size_dom. f_equal.
  apply set_eq. intros m. rewrite !elem_of_dom. split; intros [sc Hsc].
  - exists sc. apply Hmem'. apply Hmem in Hsc as (-> & Hs & Hlt).
    split; [done|]. split; [by apply seconds_of_own_calls | done].
  - exists sc. apply Hmem. apply Hmem' in Hsc as (-> & Hs & Hlt).
    split; [done|]. split; [by apply seconds_of_own_calls | done].
Qed.

(** Once an identity has been silent for 60 s its window starts over:
    the next call counts one entry, whatever went before, and is
    accepted with any ceiling of at least 1. *)
Theorem check_rate_limit_resumes_after_silence lim calls user_id now :
  chronological (calls ++ [(user_id, now)]) →
  (∀ t, (user_id, t) ∈ calls → t + 60 * 1000 <= now) →
  ∃ replies self',
    run (fresh lim) (calls ++ [(user_id, now)]) = (replies, self')
    ∧ zcard (keyspace (redis self')) (rate_limit_key user_id) now = 1
    ∧ last replies = Some (Ok (bool_decide (1 <= lim))).
Proof.
  intros Hchr Hsilent.
  pose proof (chronological_snoc _ _ Hchr) as (_ & _ & Hle).
  destruct (run_last_call lim _ _ _ Hchr)
    as (replies & db & members & Hrun & Hkey & Hmem).
  assert (Hone : size members = 1%nat).
  { rewrite <- size_dom.
    replace (dom members) with ({[int_time now]} : gset Z);
      [apply size_singleton|].
    apply set_eq. intros m. rewrite elem_of_singleton, elem_of_dom. split.
    - intros ->. exists (int_time now). apply Hmem.
      split; [done|]. split; [|lia]. apply seconds_of_snoc. by right.
    - intros [sc (_ & Hs & Hlt)%Hmem].
      apply seconds_of_snoc in Hs as [Hs | [_ ->]]; [|done].
      apply elem_of_seconds_of in Hs as (t & Hin & ->).
      pose proof (Hle _ Hin) as [Ht _]. cbn in Ht.
      pose proof (int_time_after_ttl t now Ht (Hsilent _ Hin)). lia. }
  eexists _, _. split; [exact Hrun|].
  cbn [redis keyspace]. unfold rate_limit_key, zcard, live.
  rewrite Hkey. cbn. rewrite decide_False by lia. cbn.
  rewrite last_snoc, Hone. done.
Qed.

(** Every call, accepted or rejected, records its own second and moves
    the key's deadline to 60 s after the call: up to and including that
    deadline a count of the key finds the window the call left, which
    holds the call's second; past it the key is gone and the count
    is 0, so an idle identity leaves nothing behind. *)
Theorem check_rate_limit_records_call_and_expires lim calls user_id now :
  chronological (calls ++ [(user_id, now)]) →
  ∃ k,
    keyspace (redis (snd (run (fresh lim) (calls ++ [(user_id, now)]))))
      !! rate_limit_key user_id = Some k
    ∧ zmembers k !! int_time now = Some (int_time now)
    ∧ zexpire_at k = Some (now + 60 * 1000)
    ∧ ∀ later,
        zcard (keyspace (redis (snd (run (fresh lim)
                                       (calls ++ [(user_id, now)])))))
          (rate_limit_key user_id) later
        = if decide (now + 60 * 1000 < later) then 0
          else Z.of_nat (size (zmembers k)).
Proof.
  intros Hchr.
  destruct (run_last_call lim _ _ _ Hchr)
    as (replies & db & members & Hrun & Hkey & Hmem).
  rewrite Hrun. cbn [snd redis keyspace]. unfold rate_limit_key.
  eexists. split; [exact Hkey|]. cbn [zmembers zexpire_at].
  split; [|split; [done|]].
  - apply Hmem. split; [done|]. split; [|lia].
    apply seconds_of_snoc. by right.
  - intros later. unfold zcard, live. rewrite Hkey. cbn [zexpire_at zmembers].
    by destruct (decide (now + 60 * 1000 < later)).
Qed.

End RateWindowRuns.

(** Two identities interleaved, ceiling 60. *)
Lemma check_rate_limit_never_rejects_witness :
  60 <= 60
  ∧ chronological ([(42, 1000); (7, 1500)] ++ [(42, 2000)])
  ∧ last (fst (RateLimiter.run (RateLimiter.fresh 60)
                 ([(42, 1000); (7, 1500)] ++ [(42, 2000)])))
    = Some (Ok true).
Proof.
  assert (Hchr : chronological ([(42, 1000); (7, 1500)] ++ [(42, 2000)])).
  { split.
    - repeat constructor; unfold earlier; cbn; lia.
    - repeat constructor; cbn; lia. }
  split; [lia|]. split; [exact Hchr|].
  apply (check_rate_limit_never_rejects 60 _ 42 2000); [lia | exact Hchr].
Defined.

(** Ceiling 1: identity 42 is rejected in its second second whether or
    not identity 7 called in between. *)
Lemma check_rate_limit_ignores_other_identities_witness :
  chronological ([(42, 1000); (7, 1500)] ++ [(42, 2000)])
  ∧ last (fst (RateLimiter.run (RateLimiter.fresh 1)
                 ([(42, 1000); (7, 1500)] ++ [(42, 2000)])))
    = Some (Ok false).
Proof.
  assert (Hchr : chronological ([(42, 1000); (7, 1500)] ++ [(42, 2000)])).
  { split.
    - repeat constructor; unfold earlier; cbn; lia.
    - repeat constructor; cbn; lia. }
  split; [exact Hchr|].
  rewrite (check_rate_limit_ignores_other_identities 1 _ 42 2000 Hchr).
  reflexivity.
Defined.

(** Ceiling 1: rejected at second 2, accepted again 60 s later. *)
Lemma check_rate_limit_resumes_after_silence_witness :
  chronological ([(42, 1000); (42, 2000)] ++ [(42, 62000)])
  ∧ last (fst (RateLimiter.run (RateLimiter.fresh 1)
                 ([(42, 1000); (42, 2000)] ++ [(42, 62000)])))
    = Some (Ok true).
Proof.
  assert (Hchr : chronological ([(42, 1000); (42, 2000)] ++ [(42, 62000)])).
  { split.
    - repeat constructor; unfold earlier; cbn; lia.
    - repeat constructor; cbn; lia. }
  split; [exact Hchr|].
  assert (Hsilent : ∀ t, (42, t) ∈ [(42, 1000); (42, 2000)]
                         → t + 60 * 1000 <= 62000).
  { intros t Ht. apply elem_of_cons in Ht as [[= ->] | Ht]; [lia|].
    apply list_elem_of_singleton in Ht as [= ->]. lia. }
  destruct (check_rate_limit_resumes_after_silence 1 _ 42 62000 Hchr Hsilent)
    as (replies & self' & Hrun & _ & Hlast).
  rewrite Hrun. cbn [fst]. rewrite Hlast. reflexivity.
Defined.

Lemma check_rate_limit_records_call_and_expires_witness :
  chronological ([(42, 1000)] ++ [(42, 2000)])
  ∧ Redis.zcard
      (Redis.keyspace
         (RateLimiter.redis
            (snd (RateLimiter.run (RateLimiter.fresh 60)
                    ([(42, 1000)] ++ [(42, 2000)])))))
      (RateLimiter.rate_limit_key 42) 62001
    = 0.
Proof.
  assert (Hchr : chronological ([(42, 1000)] ++ [(42, 2000)])).
  { split.
    - repeat constructor; unfold earlier; cbn; lia.
    - repeat constructor; cbn; lia. }
  split; [exact Hchr|].
  destruct (check_rate_limit_records_call_and_expires 60 _ 42 2000 Hchr)
    as (k & _ & _ & _ & Hcard).
  rewrite Hcard. reflexivity.
Defined.

(** ** More on PaymentManager.create_payment *)

Section PaymentResults.
Import Vendors PaymentManager.

Variables (amount : float) (currency description : string).

(** [create_payment] never lets an exception out, whatever the
    provider and whatever the vendor does; it sends at most one vendor
    request and leaves the database, the counters, the chat transport
    and the rate limiter as they were. *)
Theorem create_payment_never_raises provider w :
  ∃ r w',
    create_payment amount currency provider description w = (Ok r, w')
    ∧ db w' = db w
    ∧ analytics w' = analytics w
    ∧ telegram w' = telegram w
    ∧ rate_limiter w' = rate_limiter w
    ∧ ∃ sent, calls (vendors w') = calls (vendors w) ++ sent
              ∧ (length sent <= 1)%nat.
Proof.
  destruct provider as [[| |]|other].
  - cbv beta iota zeta delta
      [create_payment try_except _create_paypal_payment bind call_paypal
       ret raise logger_error].
    destruct (paypal (vendors w) _); eexists _, _;
      (split; [reflexivity|]); destruct w; cbn;
      (repeat split; try reflexivity); eexists [_]; split; cbn; done.
  - cbv beta iota zeta delta
      [create_payment try_except _create_stripe_payment bind lift
       call_stripe ret raise logger_error].
    destruct (int_of_float (amount * 100)) as [cents|e].
    + destruct (stripe (vendors w) _); eexists _, _;
        (split; [reflexivity|]); destruct w; cbn;
        (repeat split; try reflexivity); eexists [_]; split; cbn; done.
    + eexists _, _. split; [reflexivity|]. destruct w; cbn.
      repeat split; try reflexivity.
      exists []. split; [by rewrite app_nil_r | cbn; lia].
  - eexists _, _. split; [reflexivity|]. destruct w; cbn.
    repeat split; try reflexivity.
    exists []. split; [by rewrite app_nil_r | cbn; lia].
  - eexists _, _. split; [reflexivity|]. destruct w; cbn.
    repeat split; try reflexivity.
    exists []. split; [by rewrite app_nil_r | cbn; lia].
Qed.

(** When PayPal creates the payment, the caller gets PayPal's id and
    links tagged "paypal"; exactly one request went out, to PayPal,
    carrying the amount to two decimals, the currency, the description
    and the two fixed redirect URLs; nothing is logged. *)
Theorem create_payment_paypal_created w id links :
  paypal (vendors w) (paypal_payment amount currency description)
  = PayPalCreated id links →
  let '(r, w') := create_payment amount currency (Member PAYPAL) description w in
  r = Ok (Some (PayPalRef id links "paypal"))
  ∧ calls (vendors w')
    = calls (vendors w)
      ++ [PayPalCall
            (MkPayPalPayment "sale" "paypal" (Format2f amount) currency
               description "https://your-domain.com/payment/success"
               "https://your-domain.com/payment/cancel")]
  ∧ log w' = log w.
Proof.
  intros Hreply.
  cbv beta iota zeta delta
    [create_payment try_except _create_paypal_payment bind call_paypal
     ret raise logger_error].
  rewrite Hreply. destruct w; cbn. by repeat split.
Qed.

(** When Stripe creates the session, the caller gets Stripe's id and
    URL tagged "stripe"; exactly one request went out, to Stripe, for
    one card payment of [int(amount * 100)] minor units. *)
Theorem create_payment_stripe_created w cents id url :
  int_of_float (amount * 100)%float = Ok cents →
  stripe (vendors w) (stripe_session cents currency description)
  = StripeCreated id url →
  let '(r, w') := create_payment amount currency (Member STRIPE) description w in
  r = Ok (Some (StripeRef id url "stripe"))
  ∧ calls (vendors w')
    = calls (vendors w)
      ++ [StripeCall
            (MkStripeSession ["card"] currency cents description 1 "payment"
               "https://your-domain.com/success"
               "https://your-domain.com/cancel")]
  ∧ log w' = log w.
Proof.
  intros Hcents Hreply.
  cbv beta iota zeta delta
    [create_payment try_except _create_stripe_payment bind lift
     call_stripe ret raise logger_error].
  rewrite Hcents, Hreply. destruct w; cbn. by repeat split.
Qed.

(** An amount whose hundredfold has no integer value (NaN, an
    infinity) never reaches Stripe: the conversion error is logged once
    under the Stripe prefix and the result is [None]. *)
Theorem create_payment_stripe_amount_not_convertible w e :
  int_of_float (amount * 100)%float = Raise e →
  let '(r, w') := create_payment amount currency (Member STRIPE) description w in
  r = Ok None
  ∧ calls (vendors w') = calls (vendors w)
  ∧ log w' = log w ++ [LogError "Ошибка создания платежа Stripe" e].
Proof.
  intros Hcents.
  cbv beta iota zeta delta
    [create_payment try_except _create_stripe_payment bind lift
     call_stripe ret raise logger_error].
  rewrite Hcents. destruct w; cbn. by repeat split.
Qed.

End PaymentResults.

Lemma create_payment_paypal_created_witness :
  Vendors.paypal (vendors world_vendors_up)
    (PaymentManager.paypal_payment 10 "USD" "Hotels")
  = Vendors.PayPalCreated "PAY-1" ["https://paypal.example/approve"]
  ∧ fst (PaymentManager.create_payment 10 "USD" (Member PAYPAL) "Hotels"
           world_vendors_up)
    = Ok (Some (PayPalRef "PAY-1" ["https://paypal.example/approve"] "paypal")).
Proof.
  split; [reflexivity|].
  pose proof (create_payment_paypal_created 10 "USD" "Hotels"
                world_vendors_up _ _ eq_refl) as H.
  destruct (PaymentManager.create_payment 10 "USD" (Member PAYPAL) "Hotels"
              world_vendors_up) as [r w'].
  exact (proj1 H).
Defined.

Lemma create_payment_stripe_created_witness :
  int_of_float (10 * 100)%float = Ok 1000
  ∧ Vendors.stripe (vendors world_vendors_up)
      (PaymentManager.stripe_session 1000 "USD" "Hotels")
    = Vendors.StripeCreated "cs_1" "https://stripe.example/pay"
  ∧ fst (PaymentManager.create_payment 10 "USD" (Member STRIPE) "Hotels"
           world_vendors_up)
    = Ok (Some (StripeRef "cs_1" "https://stripe.example/pay" "stripe")).
Proof.
  assert (Hcents : int_of_float (10 * 100)%float = Ok 1000)
    by (vm_compute; reflexivity).
  split; [exact Hcents|]. split; [reflexivity|].
  pose proof (create_payment_stripe_created 10 "USD" "Hotels"
                world_vendors_up 1000 _ _ Hcents eq_refl) as H.
  destruct (PaymentManager.create_payment 10 "USD" (Member STRIPE) "Hotels"
              world_vendors_up) as [r w'].
  exact (proj1 H).
Defined.

(** A NaN amount. *)
Lemma create_payment_stripe_amount_not_convertible_witness :
  int_of_float (nan * 100)%float
  = Raise (ValueError "cannot convert float NaN to integer")
  ∧ fst (PaymentManager.create_payment nan "USD" (Member STRIPE) "Hotels"
           world_vendors_up)
    = Ok None.
Proof.
  assert (Hnan : int_of_float (nan * 100)%float
                 = Raise (ValueError "cannot convert float NaN to integer"))
    by (vm_compute; reflexivity).
  split; [exact Hnan|].
  pose proof (create_payment_stripe_amount_not_convertible nan "USD" "Hotels"
                world_vendors_up _ Hnan) as H.
  destruct (PaymentManager.create_payment nan "USD" (Member STRIPE) "Hotels"
              world_vendors_up) as [r w'].
  exact (proj1 H).
Defined.

(** ** More on Config.validate *)

Section ValidationMore.
Import Config.

(** [validate] is true exactly when each of the five required
    variables is set to a non-empty value: a variable set to the empty
    string counts as missing. *)
Theorem validate_iff_all_set_nonempty env :
  validate env = true ↔
  Forall (λ var, ∃ value, env !! var = Some value ∧ value ≠ EmptyString)
    ["BOT_TOKEN"; "DATABASE_URL"; "REDIS_URL";
     "PAYPAL_CLIENT_ID"; "STRIPE_SECRET_KEY"].
Proof.
  rewrite validate_true_iff, Forall_forall. unfold required_vars, getenv.
  split; intros H var Hin.
  - apply truthy_true_iff. by apply H.
  - apply truthy_true_iff. by apply H.
Qed.

Lemma forallb_agree {A} (f g : A → bool) (l : list A) :
  (∀ x, In x l → f x = g x) → forallb f l = forallb g l.
Proof.
  induction l as [|x l IH]; intros Hfg; [reflexivity|]. cbn.
  rewrite (Hfg x) by (by left). rewrite IH; [done|].
  intros y Hy. apply Hfg. by right.
Qed.

(** Setting or unsetting any variable outside the required five never
    changes the outcome of [validate]. *)
Theorem validate_ignores_other_variables env var value :
  var ∉ required_vars →
  validate (<[var := value]> env) = validate env
  ∧ validate (delete var env) = validate env.
Proof.
  intros Hout. unfold validate, getenv. split.
  - apply forallb_agree. intros required Hin. f_equal.
    rewrite lookup_insert_ne; [done|].
    intros ->. by apply Hout, list_elem_of_In.
  - apply forallb_agree. intros required Hin. f_equal.
    rewrite lookup_delete_ne; [done|].
    intros ->. by apply Hout, list_elem_of_In.
Qed.

End ValidationMore.

(** Supplying the PayPal client secret does not change the verdict. *)
Lemma validate_ignores_other_variables_witness :
  ("PAYPAL_CLIENT_SECRET" ∉ Config.required_vars)
  ∧ Config.validate (<["PAYPAL_CLIENT_SECRET" := "secret"]> Sample.env)
    = Config.validate Sample.env.
Proof.
  assert (Hout : "PAYPAL_CLIENT_SECRET" ∉ Config.required_vars).
  { unfold Config.required_vars. rewrite !elem_of_cons, elem_of_nil.
    intros H. repeat (destruct H as [H | H]; [discriminate H|]). exact H. }
  split; [exact Hout|].
  exact (proj1 (validate_ignores_other_variables Sample.env
                  "PAYPAL_CLIENT_SECRET" "secret" Hout)).
Defined.

(** ** DatabaseManager *)

Section UserTable.
Import DatabaseManager.





(** [create_user] keeps the identities of the table pairwise distinct:
    for an identity that already has a row it raises and stores
    nothing. *)
Theorem create_user_keeps_identities_unique
    d telegram_id language utcnow utcnow' r d' :
  NoDup (User.telegram_id <$> users d) →
  create_user d telegram_id language utcnow utcnow' = (r, d') →
  NoDup (User.telegram_id <$> users d')
  ∧ (telegram_id ∈ User.telegram_id <$> users d →
     d' = d ∧ ∃ e, r = Raise e).
Proof.
  intros Hnodup. unfold create_user.
  destruct (available d).
  - destruct (fit_column _ _ _) as [stored|e].
    + case_decide as Hin.
      * intros [= <- <-]. split; [done|]. intros _. split; [done|]. eauto.
      * intros [= <- <-]. cbn. split; [|done].
        rewrite fmap_app. apply NoDup_app. split; [done|]. split.
        -- intros x Hx ->%list_elem_of_singleton. done.
        -- cbn. apply NoDup_singleton.
    + intros [= <- <-]. split; [done|]. intros _. split; [done|]. eauto.
  - intros [= <- <-]. split; [done|]. intros _. split; [done|]. eauto.
Qed.

End UserTable.


(** A second row for identity 42 is refused. *)
Lemma create_user_keeps_identities_unique_witness :
  NoDup (User.telegram_id <$>
           [User.Make 1 42 "ru" 1000 (Some 1001) None])
  ∧ DatabaseManager.create_user
      (DatabaseManager.Make [User.Make 1 42 "ru" 1000 (Some 1001) None] [] true
         DatabaseManager.Stored)
      42 "en" 2000 2001
    = (Raise IntegrityError,
       DatabaseManager.Make [User.Make 1 42 "ru" 1000 (Some 1001) None] [] true
         DatabaseManager.Stored)
  ∧ NoDup (User.telegram_id <$>
             DatabaseManager.users
               (DatabaseManager.Make
                  [User.Make 1 42 "ru" 1000 (Some 1001) None] [] true
                  DatabaseManager.Stored)).
Proof.
  assert (Hnodup : NoDup (User.telegram_id <$>
                            [User.Make 1 42 "ru" 1000 (Some 1001) None])).
  { cbn. apply NoDup_singleton. }
  split; [exact Hnodup|]. split; [reflexivity|].
  exact (proj1 (create_user_keeps_identities_unique
                  (DatabaseManager.Make
                     [User.Make 1 42 "ru" 1000 (Some 1001) None] [] true
                     DatabaseManager.Stored)
                  42 "en" 2000 2001 _ _ Hnodup eq_refl)).
Defined.

(** ** More on Translations.get_text *)

Section TranslationTableMore.
Import Translations.

(** Every language of [SUPPORTED_LANGUAGES] has a table of its own with
    an entry for every key of the default table: for a supported
    language [get_text] returns that language's own entry and never
    falls back. *)
Theorem get_text_supported_language_own_entry parse_int env key language d :
  language ∈ Config.SUPPORTED_LANGUAGES (Config.load parse_int env) →
  en !! key = Some d →
  ∃ table text,
    translations !! language = Some table
    ∧ table !! key = Some text
    ∧ get_text translations key language = Ok text.
Proof.
  cbn [Config.SUPPORTED_LANGUAGES Config.load].
  rewrite !elem_of_cons, elem_of_nil. intros Hlang Hkey.
  rewrite get_text_unfold, Hkey.
  assert (Hk : key = "welcome" ∨ key = "select_service"
               ∨ key = "payment_error" ∨ key = "feedback_thanks").
  { revert Hkey. unfold en. rewrite !lookup_insert_Some, lookup_empty.
    intros H. repeat (destruct H as [[<- _] | [_ H]]; [auto|]).
    discriminate H. }
  destruct Hlang as [-> | [-> | [-> | [-> | []]]]];
    destruct Hk as [-> | [-> | [-> | ->]]];
    eexists _, _; (split; [reflexivity|]); split; reflexivity.
Qed.

End TranslationTableMore.

Lemma get_text_supported_language_own_entry_witness :
  "zh" ∈ Config.SUPPORTED_LANGUAGES (Config.load (λ _, 60) Sample.env)
  ∧ Translations.en !! "payment_error" = Some "Payment error occurred."
  ∧ Translations.get_text Translations.translations "payment_error" "zh"
    = Ok "支付发生错误。".
Proof.
  assert (Hin : "zh" ∈ Config.SUPPORTED_LANGUAGES
                         (Config.load (λ _, 60) Sample.env)).
  { cbn. rewrite !elem_of_cons. auto. }
  split; [exact Hin|]. split; [reflexivity|].
  destruct (get_text_supported_language_own_entry (λ _, 60) Sample.env
              "payment_error" "zh" _ Hin eq_refl)
    as (table & text & Htable & Htext & Hget).
  rewrite Hget. f_equal.
  injection Htable as <-. injection Htext as <-. reflexivity.
Defined.

(** ** More on EnhancedTravelBot.start *)

Ltac run_start :=
  cbv beta iota zeta delta
    [EnhancedTravelBot.start try_except EnhancedTravelBot.start_body bind attr
     EnhancedTravelBot.check_rate_limit EnhancedTravelBot.count_command
     EnhancedTravelBot.get_user EnhancedTravelBot.create_user
     EnhancedTravelBot.get_text EnhancedTravelBot.reply_text ret raise lift
     logger_error EnhancedTravelBot._handle_error].

Ltac start_step :=
  match goal with
  | |- context [Telegram.effective_user ?u] =>
      destruct (Telegram.effective_user u) eqn:?
  | |- context [RateLimiter.check_rate_limit ?a ?b ?c] =>
      destruct (RateLimiter.check_rate_limit a b c) as [[[|]|?] ?] eqn:?
  | |- context [Prometheus.labels ?a ?b] =>
      destruct (Prometheus.labels a b) eqn:?
  | |- context [DatabaseManager.get_user ?a ?b] =>
      destruct (DatabaseManager.get_user a b) as [[?|]|?] eqn:?
  | |- context [DatabaseManager.create_user ?a ?b ?c ?d ?e] =>
      destruct (DatabaseManager.create_user a b c d e) as [[[?|]|?] ?] eqn:?
  | |- context [Translations.get_text ?a ?b ?c] =>
      destruct (Translations.get_text a b c) eqn:?
  | |- context [Telegram.message ?u] =>
      destruct (Telegram.message u) eqn:?
  | |- context [Telegram.reply_text ?a ?b ?c ?d ?e] =>
      destruct (Telegram.reply_text a b c d e) as [[[]|?] ?] eqn:?
  | |- context [Telegram.effective_message ?u] =>
      destruct (Telegram.effective_message u) eqn:?
  end; cbn.

Section StartHandlerMore.
Import EnhancedTravelBot.

Lemma create_user_frame d telegram_id language utcnow utcnow' r d' :
  DatabaseManager.create_user d telegram_id language utcnow utcnow' = (r, d') →
  DatabaseManager.transactions d' = DatabaseManager.transactions d
  ∧ ∃ added, DatabaseManager.users d' = DatabaseManager.users d ++ added
             ∧ (length added <= 1)%nat.
Proof.
  unfold DatabaseManager.create_user.
  destruct (DatabaseManager.available d);
    [destruct (DatabaseManager.fit_column _ _ _); [case_decide|]|];
    intros [= <- <-]; (split; [done|]).
  - exists []. split; [by rewrite app_nil_r | cbn; lia].
  - eexists [_]. split; [reflexivity | cbn; lia].
  - exists []. split; [by rewrite app_nil_r | cbn; lia].
  - exists []. split; [by rewrite app_nil_r | cbn; lia].
Qed.

Lemma reply_text_ok tg m txt pm markup tg' :
  Telegram.reply_text tg m txt pm markup = (Ok tt, tg') →
  tg' = Telegram.Make
          (Telegram.outbox tg ++ [Telegram.MkSent (Telegram.chat_id m) txt pm markup])
          true.
Proof.
  unfold Telegram.reply_text. destruct (Telegram.up tg); [|discriminate].
  by intros [= <-].
Qed.

(** Whatever the update and however it ends, [start] makes no vendor
    request, stores no transaction, leaves the payment counter, the
    configuration and the translation table alone, adds at most one
    row to the user table and never answers [AWAITING_PAYMENT]. *)
Theorem start_leaves_payments_alone update w :
  vendors (snd (start update w)) = vendors w
  ∧ DatabaseManager.transactions (db (snd (start update w)))
    = DatabaseManager.transactions (db w)
  ∧ Analytics.payment_counter (analytics (snd (start update w)))
    = Analytics.payment_counter (analytics w)
  ∧ config (snd (start update w)) = config w
  ∧ translations (snd (start update w)) = translations w
  ∧ fst (start update w) ≠ Ok AWAITING_PAYMENT
  ∧ ∃ added,
      DatabaseManager.users (db (snd (start update w)))
      = DatabaseManager.users (db w) ++ added
      ∧ (length added <= 1)%nat.
Proof.
  run_start. repeat start_step;
    repeat match goal with
           | H : DatabaseManager.create_user _ _ _ _ _ = _ |- _ =>
               apply create_user_frame in H as (? & ? & ? & ?)
           end;
    (repeat split; try (reflexivity || discriminate || assumption));
    first [ eexists; split; [eassumption | assumption]
          | exists []; split; [by rewrite app_nil_r | cbn; lia] ].
Qed.

(** The command counter moves exactly when the limiter accepted the
    call: an accepted [/start] is counted even if the handler then
    fails, a rejected one is not counted. *)
Theorem start_counts_iff_allowed update w u allowed rl :
  exposes (analytics w) →
  Telegram.effective_user update = Some u →
  RateLimiter.check_rate_limit (rate_limiter w) (Telegram.id u) (clock w)
  = (Ok allowed, rl) →
  Analytics.scrape (analytics (snd (start update w))) "bot_commands_total"
    [("command", "start")]
  = if allowed then
      Some (default 0 (Analytics.scrape (analytics w) "bot_commands_total"
                         [("command", "start")]) + 1)
    else
      Analytics.scrape (analytics w) "bot_commands_total"
        [("command", "start")].
Proof.
  intros Hexp Hu Hcheck.
  pose proof Hexp as (Hn & Hl & Hp & Hpl).
  assert (Hcounted :
    Analytics.scrape (counted (analytics w) ["start"]) "bot_commands_total"
      [("command", "start")]
    = Some (default 0 (Analytics.scrape (analytics w) "bot_commands_total"
                         [("command", "start")]) + 1)).
  { rewrite (scrape_bot_commands_total _ _ Hexp).
    rewrite scrape_bot_commands_total by (by repeat split).
    unfold counted, Prometheus.inc, Prometheus.value. cbn.
    by rewrite lookup_insert_eq. }
  run_start. rewrite Hu. cbn. rewrite Hcheck. cbn.
  destruct allowed; cbn.
  - rewrite (labels_command _ _ Hl). cbn.
    repeat start_step; exact Hcounted.
  - repeat start_step; reflexivity.
Qed.

(** A rejected [/start] gets the rate-limit notice and ends the
    conversation; it is not counted, no profile is looked up or
    created, and nothing is logged. *)
Theorem start_rate_limited update w u rl m :
  Telegram.effective_user update = Some u →
  RateLimiter.check_rate_limit (rate_limiter w) (Telegram.id u) (clock w)
  = (Ok false, rl) →
  Telegram.message update = Some m →
  Telegram.up (telegram w) = true →
  ∃ w',
    start update w = (Ok END, w')
    ∧ Telegram.outbox (telegram w')
      = Telegram.outbox (telegram w)
        ++ [Telegram.MkSent (Telegram.chat_id m)
              "Слишком много запросов. Пожалуйста, попробуйте позже."
              None None]
    ∧ db w' = db w
    ∧ analytics w' = analytics w
    ∧ log w' = log w
    ∧ rate_limiter w' = rl.
Proof.
  intros Hu Hcheck Hm Hup. run_start.
  rewrite Hu. cbn. rewrite Hcheck. cbn. rewrite Hm. cbn.
  unfold Telegram.reply_text. rewrite Hup. cbn.
  eexists. by repeat split.
Qed.

(** For an identity that already has a profile, a [/start] handled
    through to [SELECTING_SERVICE] changes nothing in the database (the
    stored language and the last-active time stay as they were,
    whatever locale the update reports) and sends exactly one message:
    the welcome text in the stored language, as Markdown, with the
    keyboard. *)
Theorem start_existing_profile_untouched update w w' u row :
  Telegram.effective_user update = Some u →
  DatabaseManager.get_user (db w) (Telegram.id u) = Ok (Some row) →
  start update w = (Ok SELECTING_SERVICE, w') →
  db w' = db w
  ∧ ∃ m welcome,
      Telegram.message update = Some m
      ∧ Translations.get_text (translations w) "welcome" (User.language row)
        = Ok welcome
      ∧ Telegram.outbox (telegram w')
        = Telegram.outbox (telegram w)
          ++ [Telegram.MkSent (Telegram.chat_id m) welcome
                (Some Telegram.MARKDOWN)
                (Some (_get_keyboard (User.language row)))].
Proof.
  intros Hu Hrow Hstart.
  apply start_selecting, start_body_selecting in Hstart
    as (u' & rl & values & row' & welcome & m & tg
        & Hu' & _ & _ & Hget & Htext & Hm & Hsend & ->).
  rewrite Hu in Hu'. injection Hu' as <-.
  rewrite Hrow in Hget. injection Hget as <-.
  apply reply_text_ok in Hsend as ->.
  split; [reflexivity|]. by exists m, welcome.
Qed.

(** No [/start] of an identity without a profile is handled through to
    [SELECTING_SERVICE]: reading the language of the object
    [create_user] hands back raises, when creating the profile did not
    raise already. *)
Theorem start_new_identity_never_selects update w u :
  Telegram.effective_user update = Some u →
  DatabaseManager.get_user (db w) (Telegram.id u) = Ok None →
  fst (start update w) ≠ Ok SELECTING_SERVICE.
Proof.
  intros Hu Hnew Hfst.
  destruct (start update w) as [r w'] eqn:Hstart. cbn in Hfst. subst r.
  apply start_selecting, start_body_selecting in Hstart
    as (u' & rl & values & row & welcome & m & tg
        & Hu' & _ & _ & Hget & _).
  rewrite Hu in Hu'. injection Hu' as <-.
  rewrite Hnew in Hget. discriminate Hget.
Qed.


End StartHandlerMore.

(** The first [/start] of identity 42 on the sample world is counted. *)
Lemma start_counts_iff_allowed_witness :
  exposes (analytics Sample.world)
  ∧ fst (RateLimiter.check_rate_limit (rate_limiter Sample.world) 42
           (clock Sample.world)) = Ok true
  ∧ Analytics.scrape
      (analytics (snd (EnhancedTravelBot.start Runs.ru_start Sample.world)))
      "bot_commands_total" [("command", "start")]
    = Some 1.
Proof.
  split; [exact init_exposes|]. split; [reflexivity|].
  rewrite (start_counts_iff_allowed Runs.ru_start Sample.world
             (Telegram.MkUser 42 (Some "ru")) true
             (snd (RateLimiter.check_rate_limit (rate_limiter Sample.world) 42
                     (clock Sample.world)))
             init_exposes eq_refl eq_refl).
  reflexivity.
Defined.

(** With no quota left, identity 42 gets the notice. *)
Lemma start_rate_limited_witness :
  fst (RateLimiter.check_rate_limit (rate_limiter world_no_quota) 42
         (clock world_no_quota)) = Ok false
  ∧ fst (EnhancedTravelBot.start Runs.ru_start world_no_quota) = Ok END.
Proof.
  split; [reflexivity|].
  destruct (start_rate_limited Runs.ru_start world_no_quota
              (Telegram.MkUser 42 (Some "ru"))
              (snd (RateLimiter.check_rate_limit (rate_limiter world_no_quota)
                      42 (clock world_no_quota)))
              (Telegram.MkMessage 42) eq_refl eq_refl eq_refl eq_refl)
    as (w' & Hstart & _).
  rewrite Hstart. reflexivity.
Defined.

(** Identity 42, stored with "ru", now reporting locale "en": the table
    is unchanged and the welcome is the Russian one. *)
Lemma start_existing_profile_untouched_witness :
  DatabaseManager.get_user (db world_with_profile) 42
  = Ok (Some (User.Make 1 42 "ru" 1600000000000 (Some 1600000000000) None))
  ∧ fst (EnhancedTravelBot.start Runs.en_start world_with_profile)
    = Ok SELECTING_SERVICE
  ∧ db (snd (EnhancedTravelBot.start Runs.en_start world_with_profile))
    = db world_with_profile.
Proof.
  split; [reflexivity|]. split; [reflexivity|].
  assert (Hstart : EnhancedTravelBot.start Runs.en_start world_with_profile
                   = (Ok SELECTING_SERVICE,
                      snd (EnhancedTravelBot.start Runs.en_start
                             world_with_profile)))
    by (vm_compute; reflexivity).
  exact (proj1 (start_existing_profile_untouched Runs.en_start
                  world_with_profile _ (Telegram.MkUser 42 (Some "en")) _
                  eq_refl eq_refl Hstart)).
Defined.

(** New identity 42 on the sample world. *)
Lemma start_new_identity_never_selects_witness :
  DatabaseManager.get_user (db Sample.world) 42 = Ok None
  ∧ fst (EnhancedTravelBot.start Runs.ru_start Sample.world)
    ≠ Ok SELECTING_SERVICE.
Proof.
  split; [reflexivity|].
  exact (start_new_identity_never_selects Runs.ru_start Sample.world
           (Telegram.MkUser 42 (Some "ru")) eq_refl eq_refl).
Defined.


(** ** PaymentManager._initialize_providers *)

Section Providers.
Import Config Vendors PaymentManager.

(** When [main] gets past [Config.validate], the configuration it
    builds hands both SDKs what the environment holds: PayPal is set to
    sandbox mode with a non-empty client id, Stripe gets a non-empty
    key; the PayPal client secret is passed on as it is, set or not.
    Configuring the SDKs sends no request. *)
Theorem validated_credentials_reach_sdks parse_int env cfg w :
  main_configuration parse_int env = Some cfg →
  config w = cfg →
  let '(r, w') := _initialize_providers w in
  r = Ok tt
  ∧ (∃ client_id key,
       env !! "PAYPAL_CLIENT_ID" = Some client_id
       ∧ client_id ≠ EmptyString
       ∧ env !! "STRIPE_SECRET_KEY" = Some key
       ∧ key ≠ EmptyString
       ∧ paypal_credentials (vendors w')
         = Some ("sandbox", Some client_id, env !! "PAYPAL_CLIENT_SECRET")
       ∧ stripe_api_key (vendors w') = Some key)
  ∧ calls (vendors w') = calls (vendors w).
Proof.
  unfold main_configuration.
  destruct (validate env) eqn:Hv; [|discriminate]. cbn.
  intros [= <-] Hcfg.
  pose proof (proj1 (validate_true_iff env) Hv) as Hall.
  assert (Hid : truthy (getenv env "PAYPAL_CLIENT_ID") = true).
  { apply Hall. unfold required_vars. rewrite !elem_of_cons. auto 10. }
  assert (Hkey : truthy (getenv env "STRIPE_SECRET_KEY") = true).
  { apply Hall. unfold required_vars. rewrite !elem_of_cons. auto 10. }
  apply truthy_true_iff in Hid as (client_id & Hid & Hid_ne).
  apply truthy_true_iff in Hkey as (key & Hkey & Hkey_ne).
  unfold getenv in Hid, Hkey.
  unfold _initialize_providers. rewrite Hcfg.
  split; [reflexivity|]. split; [|by destruct w].
  exists client_id, key. destruct w; cbn. unfold getenv.
  rewrite Hid, Hkey. by repeat split.
Qed.

End Providers.

Lemma validated_credentials_reach_sdks_witness :
  main_configuration (λ _, 60) Sample.env = Some (config Sample.world)
  ∧ Vendors.stripe_api_key
      (vendors (snd (PaymentManager._initialize_providers Sample.world)))
    = Some "sk_test".
Proof.
  split; [reflexivity|].
  pose proof (validated_credentials_reach_sdks (λ _, 60) Sample.env _
                Sample.world eq_refl eq_refl) as H.
  destruct (PaymentManager._initialize_providers Sample.world) as [r w'].
  destruct H as (_ & (client_id & key & _ & _ & Hkey & _ & _ & Hstripe) & _).
  cbn [snd]. rewrite Hstripe. f_equal.
  assert (Hk : Some key = Some "sk_test") by (rewrite <- Hkey; reflexivity).
  by injection Hk.
Defined.

